(** * Syncboard: the server-side synchronisation hub ([server.js])

    A shallow embedding of the socket handlers of [server.js] and of the
    three in-memory stores they share, followed by the properties of the
    hub: fan-out of updates, bounded and duplicate-free histories, the
    session registry, and the behaviour of connections that are not
    authenticated.

    Conventions.
    - A JavaScript [Map] keyed by strings is a [gmap string _].
    - A JavaScript [Set] of socket ids is the list of its members in
      insertion order (the order [forEach] visits them), see [Set_add] and
      [Set_delete].
    - An array is a list, index 0 first.  The handlers mutate the history
      array in place and then hand it to [emit]; socket.io encodes the
      packet before [emit] returns, so every emitted history is the value
      the array has at that moment, and lists are enough.
    - Every handler is a function from the stores to the new stores and
      the list of packets it emits, in emission order. *)

From stdpp Require Import gmap strings list fin_maps pretty.

Open Scope string_scope.
Open Scope nat_scope.
Open Scope list_scope.
Open Scope stdpp_scope.

(** ** Data *)

(** An entry of a history, lines 128-135. *)
Record ClipboardItem := {
  id : string;
  content : string;
  type : string;
  timestamp : string;
  deviceId : string;
  deviceName : string
}.

(** The payload of [clipboard_update]; [type] may be missing. *)
Module data.
Record t := {
  content : string;
  type : option string;
  deviceId : string;
  deviceName : string
}.
End data.

(** The per-connection object: only its [userId] property is used, and it
    is [undefined] until [authenticate] succeeds.  A user id is a string,
    as the tokens of lines 65 and 89 carry it. *)
Record Socket := { userId : option string }.

(** The three stores.  [clipboardHistory] and [userSockets] are the
    globals of lines 25-26; [sockets] holds the socket object of every
    live connection, keyed by [socket.id]. *)
Record Hub := {
  clipboardHistory : gmap string (list ClipboardItem);
  userSockets : gmap string (list string);
  sockets : gmap string Socket
}.

(** Packets the hub emits. *)
Inductive Message :=
  | history (items : list ClipboardItem)
  | clipboard_sync (item : ClipboardItem)
  | auth_error (reason : string)
  | error (reason : string).

(** A packet addressed to one socket id. *)
Definition Emit : Type := string * Message.

(** What reaches the hub.  [clipboard_update] carries the two clock
    readings its handler takes: [Date.now()] for the id and [new Date()]
    for the timestamp, both in milliseconds since the epoch.
    [api_register] is the effect of [POST /api/register] on the history
    store (line 63). *)
Inductive Event :=
  | connection (socket_id : string)
  | authenticate (socket_id token : string)
  | clipboard_update (socket_id : string) (d : data.t) (now date : Z)
  | clear_history (socket_id : string)
  | delete_item (socket_id itemId : string)
  | disconnect (socket_id : string)
  | api_register (user : string).

Definition MAX_HISTORY : nat := 10.

(** ** JavaScript values *)

(** Truthiness of a string: only the empty string is falsy. *)
Definition truthy (s : string) : bool := negb (String.eqb s "").

(** Truthiness of a property that is [undefined] or a string. *)
Definition truthy_opt (v : option string) : bool :=
  match v with
  | Some s => truthy s
  | None => false
  end.

(** [v || d] for such a property. *)
Definition or_default (v : option string) (d : string) : string :=
  match v with
  | Some s => if truthy s then s else d
  | None => d
  end.

(** [Date.now().toString()]: the decimal numeral of an integer. *)
Definition Date_now_toString (now : Z) : string := pretty now.

(** [Set.prototype.add]: a new member goes last, a present one stays. *)
Definition Set_add (x : string) (s : list string) : list string :=
  if decide (x ∈ s) then s else s ++ [x].

(** [Set.prototype.delete]. *)
Definition Set_delete (x : string) (s : list string) : list string :=
  filter (λ y, y ≠ x) s.

(** [Array.prototype.findIndex]; [None] stands for [-1]. *)
Fixpoint findIndex {A} (p : A → bool) (l : list A) : option nat :=
  match l with
  | [] => None
  | x :: l' => if p x then Some 0 else S <$> findIndex p l'
  end.

(** [history.splice(i, 1)]. *)
Definition splice1 {A} (i : nat) (l : list A) : list A := delete i l.

(** [history.unshift(x)]. *)
Definition unshift {A} (x : A) (l : list A) : list A := x :: l.

(** [history.pop()]: the array without its last element. *)
Definition pop {A} (l : list A) : list A := removelast l.

(** ** The history update of [clipboard_update], lines 128-156 *)

(** Lines 128-135. *)
Definition make_item (toISOString : Z → string) (d : data.t) (now date : Z)
  : ClipboardItem :=
  {| id := Date_now_toString now;
     content := data.content d;
     type := or_default (data.type d) "text";
     timestamp := toISOString date;
     deviceId := data.deviceId d;
     deviceName := data.deviceName d |}.

(** The callback of [findIndex], line 142. *)
Definition same_content (clipboardItem item : ClipboardItem) : bool :=
  String.eqb (content item) (content clipboardItem)
  && String.eqb (type item) (type clipboardItem).

(** Lines 141-156: drop the first duplicate, add to the front, pop once
    when the array is longer than [MAX_HISTORY]. *)
Definition push (hist : list ClipboardItem) (clipboardItem : ClipboardItem)
  : list ClipboardItem :=
  let existingIndex := findIndex (same_content clipboardItem) hist in
  let hist1 :=
    match existingIndex with
    | Some i => splice1 i hist
    | None => hist
    end in
  let hist2 := unshift clipboardItem hist1 in
  if decide (MAX_HISTORY < length hist2) then pop hist2 else hist2.

(** Line 188: [history.filter(item => item.id !== itemId)]. *)
Definition remove_id (itemId : string) (hist : list ClipboardItem)
  : list ClipboardItem :=
  filter (λ item, id item ≠ itemId) hist.

(** The pair the duplicate scan compares. *)
Definition key (item : ClipboardItem) : string * string :=
  (content item, type item).

(** ** The session registry *)

(** Lines 107-110. *)
Definition register_socket (us : gmap string (list string))
  (user socket_id : string) : gmap string (list string) :=
  let us1 := if decide (is_Some (us !! user)) then us else <[user := []]> us in
  <[user := Set_add socket_id (default [] (us1 !! user))]> us1.

(** Lines 197-202. *)
Definition unregister_socket (us : gmap string (list string))
  (socket_id : string) (socket : Socket) : gmap string (list string) :=
  match userId socket with
  | Some user =>
      if truthy user then
        match us !! user with
        | Some members =>
            let members' := Set_delete socket_id members in
            if decide (length members' = 0) then delete user us
            else <[user := members']> us
        | None => us
        end
      else us
  | None => us
  end.

(** Lines 32-41.  [excludeSocketId] defaults to [null], which no socket id
    equals. *)
Definition broadcastToUserDevices (st : Hub) (user : string) (m : Message)
  (excludeSocketId : option string) : list Emit :=
  match userSockets st !! user with
  | Some members =>
      flat_map
        (λ socketId,
           if decide (Some socketId ≠ excludeSocketId)
           then [(socketId, m)] else [])
        members
  | None => []
  end.

(** The members a broadcast for [user] addresses. *)
Definition connectionsFor (st : Hub) (user : string) : list string :=
  default [] (userSockets st !! user).

(** The [Date.now()] readings of the updates of a sequence of events, in
    the order the handlers take them. *)
Definition update_clock (ev : Event) : list Z :=
  match ev with
  | clipboard_update _ _ now _ => [now]
  | _ => []
  end.

Definition clock_readings (evs : list Event) : list Z := evs ≫= update_clock.

(** ** Accounts: the data of the REST endpoints, lines 24 and 46-95 *)

(** An entry of [user.devices]. *)
Module Device.
Record t := { name : string; id : string }.
End Device.

(** A value of the [users] map, lines 56-61. *)
Module User.
Record t := {
  id : string;
  email : string;
  password : string;
  devices : list Device.t
}.
End User.

(** The whole server: the [users] map, keyed by email, beside the stores
    of the sockets.  [registering] lists the calls of the registration
    handler that have passed line 49 and wait at line 53 for
    [bcrypt.hash], each with the [email] and [deviceName] it holds. *)
Record Server := {
  users : gmap string User.t;
  registering : list (string * string);
  hub : Hub
}.

(** What an endpoint answers: [res.status(status).json({ error })], the
    body of a registration and the body of a login (status 200). *)
Inductive Response :=
  | json_error (status : nat) (message : string)
  | json_registered (token userId : string)
  | json_logged_in (token userId : string) (clipboardHistory : list ClipboardItem).

(** What reaches the server: an event of the sockets, a request to an
    endpoint, or the moment [bcrypt.hash] resolves for the [k]-th waiting
    registration.  That moment carries the hash and the clock readings of
    lines 54 and 60; a login carries the reading of line 84.  [iat] is the
    time [jwt.sign] stamps the token with. *)
Inductive Request :=
  | socket_event (ev : Event)
  | POST_register (email deviceName : string)
  | hash_resolved (k : nat) (hashedPassword : string) (now now' iat : Z)
  | POST_login (email password deviceName : string) (now iat : Z).

(** Line 85: [user.devices.find(d => d.name === deviceName)]. *)
Definition find_device (deviceName : string) (devices : list Device.t)
  : option Device.t :=
  find (λ d, String.eqb (Device.name d) deviceName) devices.

(** Lines 84-87: the device list after a login from [deviceName]. *)
Definition add_device (deviceName deviceId : string) (devices : list Device.t)
  : list Device.t :=
  match find_device deviceName devices with
  | Some _ => devices
  | None => devices ++ [{| Device.name := deviceName; Device.id := deviceId |}]
  end.

(** ** The desktop client, [renderer.js] *)

(** Lines 102-104 with limit 100 and lines 184-186 with limit 50: long
    content is cut and marked.  A string is the sequence of its code
    units. *)
Definition displayContent (limit : nat) (content : string) : string :=
  if decide (limit < String.length content)
  then String.substring 0 limit content +:+ "..."
  else content.

(** The globals of the main process that clipboard monitoring uses, with
    the system clipboard [clipboard.readText()] reads and
    [clipboard.writeText] writes; [connected] is [socket && socket.connected]. *)
Record Client := {
  isAuthenticated : bool;
  lastClipboardContent : string;
  clipboard : string;
  connected : bool
}.

(** What the main process sends: to the server over its socket, or to the
    renderer. *)
Inductive ClientOut :=
  | emit_clipboard_update (d : data.t)
  | send_clipboard_updated (text : string)
  | send_show_notification (title body : string).

(** Lines 331-352: one run of the interval callback, on a machine named
    [hostname]. *)
Definition clipboardCheck (c : Client) (hostname : string)
  : Client * list ClientOut :=
  if negb (isAuthenticated c) then (c, [])
  else
    let currentContent := clipboard c in
    if truthy currentContent
       && negb (String.eqb currentContent (lastClipboardContent c))
    then
      let c' := {| isAuthenticated := isAuthenticated c;
                   lastClipboardContent := currentContent;
                   clipboard := clipboard c;
                   connected := connected c |} in
      if connected c then
        (c', [emit_clipboard_update
                {| data.content := currentContent;
                   data.type := Some "text";
                   data.deviceId := hostname;
                   data.deviceName := hostname |};
              send_clipboard_updated currentContent])
      else (c', [])
    else (c, []).

(** Lines 371-381: the listener of [clipboard_sync]. *)
Definition on_clipboard_sync (c : Client) (item : ClipboardItem)
  : Client * list ClientOut :=
  ({| isAuthenticated := isAuthenticated c;
      lastClipboardContent := content item;
      clipboard := content item;
      connected := connected c |},
   [send_show_notification "Clipboard Synced"
      ("From " +:+ deviceName item +:+ ": "
       +:+ String.substring 0 50 (content item) +:+ "...")]).

(** Lines 514-518: the handler of [copy-to-clipboard]. *)
Definition copy_to_clipboard (c : Client) (text : string) : Client :=
  {| isAuthenticated := isAuthenticated c;
     lastClipboardContent := text;
     clipboard := text;
     connected := connected c |}.

(** The user copies [text] in some application. *)
Definition user_copies (c : Client) (text : string) : Client :=
  {| isAuthenticated := isAuthenticated c;
     lastClipboardContent := lastClipboardContent c;
     clipboard := text;
     connected := connected c |}.

(** The socket connects or drops. *)
Definition set_connected (c : Client) (b : bool) : Client :=
  {| isAuthenticated := isAuthenticated c;
     lastClipboardContent := lastClipboardContent c;
     clipboard := clipboard c;
     connected := b |}.

(** ** Sample collaborators and payloads *)

(** A password check that accepts the hash made by prefixing ["h:"]. *)
Definition sample_compare (password hashed : string) : bool :=
  String.eqb hashed ("h:" +:+ password).

(** Tokens that spell out the user id, and the verifier that reads them. *)
Definition sample_sign (userId email : string) (iat : Z) : string :=
  "jwt:" +:+ userId.

Definition sample_verify_signed (token : string) : option string :=
  if String.prefix "jwt:" token
  then Some (String.substring 4 (String.length token - 4) token)
  else None.

Definition sample_client : Client :=
  {| isAuthenticated := true; lastClipboardContent := "old";
     clipboard := "new"; connected := true |}.

(** A token verifier that accepts two tokens. *)
Definition sample_verify (token : string) : option string :=
  if decide (token = "token-u1") then Some "u1"
  else if decide (token = "token-u2") then Some "u2"
  else None.

Definition sample_toISOString (date : Z) : string := "T" +:+ pretty date.

Definition sample_data (text : string) : data.t :=
  {| data.content := text; data.type := None;
     data.deviceId := "d1"; data.deviceName := "laptop" |}.

Definition sample_item (n : nat) : ClipboardItem :=
  {| id := pretty n; content := "c" +:+ pretty n; type := "text";
     timestamp := "T0"; deviceId := "d1"; deviceName := "laptop" |}.

(** ** The handlers *)

Section Hub.

(** [jwt.verify(token, JWT_SECRET).userId]; [None] when [verify] throws. *)
Variable jwt_verify : string → option string.

(** [Date.prototype.toISOString], on milliseconds since the epoch. *)
Variable toISOString : Z → string.

Definition init : Hub :=
  {| clipboardHistory := ∅; userSockets := ∅; sockets := ∅ |}.

(** Line 98: a new socket object, without [userId].  The transport gives
    every live connection an id of its own, so a [connection] naming a
    live socket does not occur and is ignored. *)
Definition on_connection (st : Hub) (socket_id : string) : Hub * list Emit :=
  match sockets st !! socket_id with
  | Some _ => (st, [])
  | None =>
      ({| clipboardHistory := clipboardHistory st;
          userSockets := userSockets st;
          sockets := <[socket_id := {| userId := None |}]> (sockets st) |},
       [])
  end.

(** Lines 196-204, and the end of the connection: the socket object
    takes no further events. *)
Definition on_disconnect (st : Hub) (socket_id : string) (socket : Socket)
  : Hub * list Emit :=
  ({| clipboardHistory := clipboardHistory st;
      userSockets := unregister_socket (userSockets st) socket_id socket;
      sockets := delete socket_id (sockets st) |},
   []).

(** Lines 101-120.  In the [catch] branch [socket.disconnect()] closes
    the connection, and socket.io runs the socket's [disconnect]
    listener before that call returns. *)
Definition on_authenticate (st : Hub) (socket_id : string) (socket : Socket)
  (token : string) : Hub * list Emit :=
  match jwt_verify token with
  | Some user =>
      ({| clipboardHistory := clipboardHistory st;
          userSockets := register_socket (userSockets st) user socket_id;
          sockets := <[socket_id := {| userId := Some user |}]> (sockets st) |},
       [(socket_id, history (default [] (clipboardHistory st !! user)))])
  | None =>
      let '(st', out) := on_disconnect st socket_id socket in
      (st', (socket_id, auth_error "Invalid token") :: out)
  end.

(** Lines 122-167. *)
Definition on_clipboard_update (st : Hub) (socket_id : string)
  (socket : Socket) (d : data.t) (now date : Z) : Hub * list Emit :=
  match userId socket with
  | Some user =>
      if truthy user then
        let clipboardItem := make_item toISOString d now date in
        let hist := default [] (clipboardHistory st !! user) in
        let hist' := push hist clipboardItem in
        let st' :=
          {| clipboardHistory := <[user := hist']> (clipboardHistory st);
             userSockets := userSockets st;
             sockets := sockets st |} in
        (st',
         broadcastToUserDevices st' user (clipboard_sync clipboardItem)
           (Some socket_id)
         ++ broadcastToUserDevices st' user (history hist') None)
      else (st, [(socket_id, error "Not authenticated")])
  | None => (st, [(socket_id, error "Not authenticated")])
  end.

(** Lines 169-179. *)
Definition on_clear_history (st : Hub) (socket_id : string) (socket : Socket)
  : Hub * list Emit :=
  match userId socket with
  | Some user =>
      if truthy user then
        let st' :=
          {| clipboardHistory := <[user := []]> (clipboardHistory st);
             userSockets := userSockets st;
             sockets := sockets st |} in
        (st', broadcastToUserDevices st' user (history []) None)
      else (st, [(socket_id, error "Not authenticated")])
  | None => (st, [(socket_id, error "Not authenticated")])
  end.

(** Lines 181-194. *)
Definition on_delete_item (st : Hub) (socket_id : string) (socket : Socket)
  (itemId : string) : Hub * list Emit :=
  match userId socket with
  | Some user =>
      if truthy user then
        let hist := default [] (clipboardHistory st !! user) in
        let newHistory := remove_id itemId hist in
        let st' :=
          {| clipboardHistory := <[user := newHistory]> (clipboardHistory st);
             userSockets := userSockets st;
             sockets := sockets st |} in
        (st', broadcastToUserDevices st' user (history newHistory) None)
      else (st, [(socket_id, error "Not authenticated")])
  | None => (st, [(socket_id, error "Not authenticated")])
  end.

(** Line 63: the history of a newly registered user starts empty. *)
Definition on_api_register (st : Hub) (user : string) : Hub * list Emit :=
  ({| clipboardHistory := <[user := []]> (clipboardHistory st);
      userSockets := userSockets st;
      sockets := sockets st |},
   []).

(** An event of a live socket goes to that socket's listener; an event
    naming a socket that is not live reaches no listener. *)
Definition on_socket (st : Hub) (socket_id : string)
  (listener : Socket → Hub * list Emit) : Hub * list Emit :=
  match sockets st !! socket_id with
  | Some socket => listener socket
  | None => (st, [])
  end.

Definition handle (st : Hub) (ev : Event) : Hub * list Emit :=
  match ev with
  | connection s => on_connection st s
  | authenticate s token =>
      on_socket st s (λ socket, on_authenticate st s socket token)
  | clipboard_update s d now date =>
      on_socket st s (λ socket, on_clipboard_update st s socket d now date)
  | clear_history s => on_socket st s (λ socket, on_clear_history st s socket)
  | delete_item s itemId =>
      on_socket st s (λ socket, on_delete_item st s socket itemId)
  | disconnect s => on_socket st s (λ socket, on_disconnect st s socket)
  | api_register user => on_api_register st user
  end.

(** The hub after a sequence of events, and everything emitted. *)
Fixpoint run (st : Hub) (evs : list Event) : Hub * list Emit :=
  match evs with
  | [] => (st, [])
  | ev :: evs' =>
      let '(st1, out1) := handle st ev in
      let '(st2, out2) := run st1 evs' in
      (st2, out1 ++ out2)
  end.

(** The states the hub can be in. *)
Definition reachable (st : Hub) : Prop := ∃ evs, (run init evs).1 = st.

(** ** Invariants *)

(** Every stored history is bounded and has no two entries with the
    same content and type. *)
Definition history_ok (st : Hub) : Prop :=
  ∀ user hist,
    clipboardHistory st !! user = Some hist →
    length hist ≤ MAX_HISTORY ∧ NoDup (key <$> hist).

(** Every set of the registry is a set without members listed twice and
    is not empty, and every live socket that carries a [userId] is a
    member of that user's set. *)
Definition registry_ok (st : Hub) : Prop :=
  (∀ user members,
     userSockets st !! user = Some members → NoDup members ∧ members ≠ [])
  ∧ (∀ s socket user,
       sockets st !! s = Some socket → userId socket = Some user →
       s ∈ connectionsFor st user).

(** No socket id is a member of the sets of two users. *)
Definition one_user_per_socket (st : Hub) : Prop :=
  ∀ s user1 user2,
    s ∈ connectionsFor st user1 → s ∈ connectionsFor st user2 →
    user1 = user2.

(** No two entries of a stored history carry the same [id]. *)
Definition ids_distinct (st : Hub) : Prop :=
  ∀ user hist, clipboardHistory st !! user = Some hist → NoDup (id <$> hist).

(** ** The REST endpoints *)

Section Endpoints.

(** [bcrypt.compare(password, hash)]. *)
Variable bcrypt_compare : string → string → bool.

(** [jwt.sign({ userId, email }, JWT_SECRET)], stamped at [iat]. *)
Variable jwt_sign : string → string → Z → string.

Definition server_init : Server :=
  {| users := ∅; registering := []; hub := init |}.

(** Lines 46-53: the registration handler up to its [await].  A taken
    email is answered at once; otherwise the call waits for the hash and
    nothing is answered yet. *)
Definition post_register (st : Server) (email deviceName : string)
  : Server * option Response :=
  if decide (is_Some (users st !! email)) then
    (st, Some (json_error 400 "User already exists"))
  else
    ({| users := users st;
        registering := registering st ++ [(email, deviceName)];
        hub := hub st |},
     None).

(** Lines 53-66: the rest of the handler, run when [bcrypt.hash] resolves
    to [hashedPassword] for the [k]-th waiting call.  Line 49 is not
    tested a second time. *)
Definition register_resume (st : Server) (k : nat) (hashedPassword : string)
  (now now' iat : Z) : Server * option Response :=
  match registering st !! k with
  | None => (st, None)
  | Some (email, deviceName) =>
      let userId := Date_now_toString now in
      ({| users :=
            <[email := {| User.id := userId;
                          User.email := email;
                          User.password := hashedPassword;
                          User.devices :=
                            [{| Device.name := deviceName;
                                Device.id := Date_now_toString now' |}] |}]>
              (users st);
          registering := delete k (registering st);
          hub := (on_api_register (hub st) userId).1 |},
       Some (json_registered (jwt_sign userId email iat) userId))
  end.

(** Lines 70-95.  The handler awaits [bcrypt.compare] after the lookup of
    line 73; the user object it goes on with is the one the map holds. *)
Definition post_login (st : Server) (email password deviceName : string)
  (now iat : Z) : Server * Response :=
  match users st !! email with
  | None => (st, json_error 401 "Invalid credentials")
  | Some user =>
      if bcrypt_compare password (User.password user) then
        let deviceId := Date_now_toString now in
        ({| users :=
              <[email := {| User.id := User.id user;
                            User.email := User.email user;
                            User.password := User.password user;
                            User.devices :=
                              add_device deviceName deviceId (User.devices user) |}]>
                (users st);
            registering := registering st;
            hub := hub st |},
         json_logged_in (jwt_sign (User.id user) email iat) (User.id user)
           (default [] (clipboardHistory (hub st) !! User.id user)))
      else (st, json_error 401 "Invalid credentials")
  end.

(** One request: the new server, the packets sent over sockets and the
    HTTP answer. *)
Definition serve (st : Server) (req : Request)
  : Server * list Emit * option Response :=
  match req with
  | socket_event ev =>
      let '(h, out) := handle (hub st) ev in
      ({| users := users st; registering := registering st; hub := h |},
       out, None)
  | POST_register email deviceName =>
      let '(st', r) := post_register st email deviceName in
      (st', [], r)
  | hash_resolved k hashedPassword now now' iat =>
      let '(st', r) := register_resume st k hashedPassword now now' iat in
      (st', [], r)
  | POST_login email password deviceName now iat =>
      let '(st', r) := post_login st email password deviceName now iat in
      (st', [], Some r)
  end.

(** The server after a sequence of requests. *)
Definition serve_all (st : Server) (reqs : list Request) : Server :=
  foldl (λ st req, (serve st req).1.1) st reqs.

End Endpoints.

(** Every account is stored under its own email, has a device, and no two
    of its devices share a name. *)
Definition accounts_ok (st : Server) : Prop :=
  ∀ email user,
    users st !! email = Some user →
    User.email user = email
    ∧ User.devices user ≠ []
    ∧ NoDup (Device.name <$> User.devices user).

(** The socket whose listener an event runs; [api_register] is no socket
    event. *)
Definition socket_of (ev : Event) : option string :=
  match ev with
  | connection s | authenticate s _ | clipboard_update s _ _ _
  | clear_history s | delete_item s _ | disconnect s => Some s
  | api_register _ => None
  end.

(** Case analysis along the guards of the handlers. *)
Ltac handler_cases :=
  unfold handle, on_socket, on_connection, on_authenticate, on_disconnect,
    on_clipboard_update, on_clear_history, on_delete_item, on_api_register;
  repeat match goal with
    | |- context [match sockets ?st !! ?s with _ => _ end] =>
        destruct (sockets st !! s) eqn:?
    | |- context [match userId ?x with _ => _ end] => destruct (userId x) eqn:?
    | |- context [match jwt_verify ?t with _ => _ end] =>
        destruct (jwt_verify t) eqn:?
    | |- context [if truthy ?u then _ else _] => destruct (truthy u) eqn:?
    end;
  simpl.

(** ** Arrays and sets *)

Lemma findIndex_Some {A} (p : A → bool) (l : list A) (i : nat) :
  findIndex p l = Some i →
  ∃ x, l !! i = Some x ∧ p x = true
       ∧ ∀ j y, j < i → l !! j = Some y → p y = false.
Proof.
  revert i. induction l as [|a l IH]; intros i; simpl; [done|].
  destruct (p a) eqn:Ha.
  - intros [= <-]. exists a. split_and!; [done..|]. intros j y Hj. lia.
  - destruct (findIndex p l) as [k|]; simpl; [|done].
    intros [= <-]. destruct (IH k eq_refl) as (x & Hx & Hpx & Hlt).
    exists x. split_and!; [done..|].
    intros [|j] y Hj; simpl; [by intros [= <-]|].
    apply Hlt. lia.
Qed.

Lemma findIndex_None {A} (p : A → bool) (l : list A) :
  findIndex p l = None ↔ ∀ x, x ∈ l → p x = false.
Proof.
  induction l as [|a l IH]; simpl.
  - split; [|done]. intros _ x Hx. by apply elem_of_nil in Hx.
  - destruct (p a) eqn:Ha.
    + split; [done|]. intros H. rewrite H in Ha; [done|]. by left.
    + rewrite fmap_None, IH. split.
      * intros H x [->|Hx]%elem_of_cons; auto.
      * intros H x Hx. apply H. by right.
Qed.

Lemma length_pop {A} (l : list A) : length (pop l) = length l - 1.
Proof.
  unfold pop. rewrite removelast_firstn_len.
  change firstn with (@take A). rewrite length_take. lia.
Qed.

Lemma pop_sublist {A} (l : list A) : pop l `sublist_of` l.
Proof.
  unfold pop. rewrite removelast_firstn_len. apply sublist_take.
Qed.

Lemma same_content_key (clipboardItem item : ClipboardItem) :
  same_content clipboardItem item = true ↔ key item = key clipboardItem.
Proof.
  unfold same_content, key.
  rewrite andb_true_iff, !String.eqb_eq. split.
  - by intros [-> ->].
  - by intros [= -> ->].
Qed.

Lemma Set_add_elem (x y : string) (s : list string) :
  y ∈ Set_add x s ↔ y = x ∨ y ∈ s.
Proof.
  unfold Set_add. case_decide.
  - split; [auto|]. by intros [->|].
  - rewrite elem_of_app, list_elem_of_singleton. tauto.
Qed.

Lemma Set_add_NoDup (x : string) (s : list string) :
  NoDup s → NoDup (Set_add x s).
Proof.
  intros Hs. unfold Set_add. case_decide; [done|].
  apply NoDup_app. split_and!; [done| |apply NoDup_singleton].
  intros y Hy ->%list_elem_of_singleton. done.
Qed.

Lemma Set_delete_elem (x y : string) (s : list string) :
  y ∈ Set_delete x s ↔ y ≠ x ∧ y ∈ s.
Proof. unfold Set_delete. by rewrite list_elem_of_filter. Qed.

Lemma Set_delete_NoDup (x : string) (s : list string) :
  NoDup s → NoDup (Set_delete x s).
Proof. apply NoDup_filter. Qed.

Lemma delete_middle {A} (l : list A) (i : nat) (x : A) :
  l !! i = Some x →
  ∃ l1 l2, l = l1 ++ x :: l2 ∧ delete i l = l1 ++ l2 ∧ length l1 = i.
Proof.
  intros Hi. exists (take i l), (drop (S i) l). split_and!.
  - by rewrite take_drop_middle.
  - apply delete_take_drop.
  - apply length_take_le. apply lookup_lt_Some in Hi. lia.
Qed.

(** ** The history update *)

(** The array after the duplicate scan and [splice], before [unshift]:
    either nothing matched and it is untouched, or the first match is
    cut out. *)
Lemma scan_cases (hist : list ClipboardItem) (clipboardItem : ClipboardItem) :
  (findIndex (same_content clipboardItem) hist = None
   ∧ ∀ x, x ∈ hist → key x ≠ key clipboardItem)
  ∨ (∃ i l1 e l2,
       findIndex (same_content clipboardItem) hist = Some i
       ∧ hist = l1 ++ e :: l2 ∧ splice1 i hist = l1 ++ l2
       ∧ length l1 = i
       ∧ key e = key clipboardItem
       ∧ ∀ x, x ∈ l1 → key x ≠ key clipboardItem).
Proof.
  destruct (findIndex (same_content clipboardItem) hist) as [i|] eqn:Hf.
  - right. destruct (findIndex_Some _ _ _ Hf) as (e & Hi & He & Hlt).
    destruct (delete_middle _ _ _ Hi) as (l1 & l2 & Hl & Hd & Hlen).
    exists i, l1, e, l2. split_and!; [done..| |].
    + by apply same_content_key.
    + intros x Hx Hk. apply list_elem_of_lookup in Hx as [j Hj].
      assert (j < i) as Hji by (apply lookup_lt_Some in Hj; lia).
      assert (hist !! j = Some x) as Hj'.
      { rewrite Hl. by rewrite lookup_app_l by lia. }
      apply same_content_key in Hk. rewrite (Hlt j x Hji Hj') in Hk. done.
  - left. split; [done|]. intros x Hx Hk.
    apply same_content_key in Hk.
    rewrite (proj1 (findIndex_None _ _) Hf x Hx) in Hk. done.
Qed.

Lemma push_no_match (hist : list ClipboardItem) (clipboardItem : ClipboardItem) :
  findIndex (same_content clipboardItem) hist = None →
  push hist clipboardItem =
    if decide (MAX_HISTORY < S (length hist))
    then pop (clipboardItem :: hist) else clipboardItem :: hist.
Proof. intros Hf. unfold push. rewrite Hf. done. Qed.

Lemma push_match (hist l1 l2 : list ClipboardItem) (i : nat)
  (clipboardItem : ClipboardItem) :
  findIndex (same_content clipboardItem) hist = Some i →
  splice1 i hist = l1 ++ l2 →
  push hist clipboardItem =
    if decide (MAX_HISTORY < S (length (l1 ++ l2)))
    then pop (clipboardItem :: l1 ++ l2) else clipboardItem :: l1 ++ l2.
Proof. intros Hf Hs. unfold push. rewrite Hf, Hs. done. Qed.

Lemma length_push (hist : list ClipboardItem) (clipboardItem : ClipboardItem) :
  length hist ≤ MAX_HISTORY → length (push hist clipboardItem) ≤ MAX_HISTORY.
Proof.
  intros Hlen.
  destruct (scan_cases hist clipboardItem)
    as [[Hf _]|(i & l1 & e & l2 & Hf & Hh & Hs & _)].
  - rewrite push_no_match by done.
    case_decide; [rewrite length_pop|]; simpl; lia.
  - rewrite (push_match _ _ _ _ _ Hf Hs).
    assert (length (l1 ++ l2) < length hist) as Hlt.
    { rewrite Hh, !length_app. simpl. lia. }
    case_decide; [rewrite length_pop|]; simpl; lia.
Qed.

Lemma push_NoDup (hist : list ClipboardItem) (clipboardItem : ClipboardItem) :
  NoDup (key <$> hist) → NoDup (key <$> push hist clipboardItem).
Proof.
  intros Hnd.
  assert (∀ l, NoDup (key <$> l) →
            (∀ x, x ∈ l → key x ≠ key clipboardItem) →
            NoDup (key <$> clipboardItem :: l)) as Hcons.
  { intros l Hl Hne. rewrite fmap_cons. apply NoDup_cons. split; [|done].
    intros (x & Hk & Hx)%list_elem_of_fmap. by apply (Hne x). }
  assert (∀ l, NoDup (key <$> l) → NoDup (key <$> pop l)) as Hpop.
  { intros l Hl. eapply sublist_NoDup; [exact Hl|].
    apply fmap_sublist, pop_sublist. }
  destruct (scan_cases hist clipboardItem)
    as [[Hf Hne]|(i & l1 & e & l2 & Hf & Hh & Hs & _ & He & Hne)].
  - rewrite push_no_match by done. case_decide; auto.
  - rewrite (push_match _ _ _ _ _ Hf Hs).
    assert (NoDup (key <$> clipboardItem :: l1 ++ l2)) as Hok.
    { rewrite Hh, fmap_app, fmap_cons in Hnd.
      apply NoDup_app in Hnd as (Hl1 & Hdisj & [Hel2 Hl2]%NoDup_cons).
      apply Hcons.
      - rewrite fmap_app. apply NoDup_app. split_and!; [done| |done].
        intros k Hk Hk2. apply (Hdisj k Hk). by right.
      - intros x [Hx|Hx]%elem_of_app; [by apply Hne|].
        intros Hk. apply Hel2. rewrite He, <- Hk.
        by apply list_elem_of_fmap_2. }
    case_decide; auto.
Qed.

Lemma length_remove_id (itemId : string) (hist : list ClipboardItem) :
  length (remove_id itemId hist) ≤ length hist.
Proof. apply length_filter. Qed.

Lemma remove_id_NoDup (itemId : string) (hist : list ClipboardItem) :
  NoDup (key <$> hist) → NoDup (key <$> remove_id itemId hist).
Proof.
  intros Hnd. eapply sublist_NoDup; [exact Hnd|].
  apply fmap_sublist. unfold remove_id. apply sublist_filter.
Qed.

(** ** What one event does to the stores *)


(** The history store changes at one user at most, and only in one of
    three ways. *)
Lemma handle_history (st : Hub) (ev : Event) :
  clipboardHistory (handle st ev).1 = clipboardHistory st
  ∨ ∃ user hist',
      clipboardHistory (handle st ev).1
        = <[user := hist']> (clipboardHistory st)
      ∧ (hist' = []
         ∨ (∃ s d now date,
              ev = clipboard_update s d now date
              ∧ hist' = push (default [] (clipboardHistory st !! user))
                          (make_item toISOString d now date))
         ∨ (∃ itemId,
              hist' = remove_id itemId (default [] (clipboardHistory st !! user)))).
Proof.
  destruct ev; handler_cases; try (by left); right; eexists _, _;
    (split; [reflexivity|]); eauto 10.
Qed.

Lemma handle_history_ok (st : Hub) (ev : Event) :
  history_ok st → history_ok (handle st ev).1.
Proof.
  intros Hok. unfold history_ok.
  destruct (handle_history st ev) as [->|(user & hist' & -> & Hcase)]; [done|].
  assert (length (default [] (clipboardHistory st !! user)) ≤ MAX_HISTORY
          ∧ NoDup (key <$> default [] (clipboardHistory st !! user)))
    as [Hlen Hnd].
  { destruct (clipboardHistory st !! user) as [h|] eqn:Hh; simpl.
    - by apply (Hok user).
    - split; [unfold MAX_HISTORY; lia|constructor]. }
  intros u h. rewrite lookup_insert. case_decide as Hu; [|apply Hok].
  intros [= <-].
  destruct Hcase as [->|[(s & d & now & date & _ & ->)|[itemId ->]]].
  - split; [simpl; lia|constructor].
  - split; [by apply length_push|by apply push_NoDup].
  - split; [|by apply remove_id_NoDup].
    pose proof (length_remove_id itemId
                  (default [] (clipboardHistory st !! user))). lia.
Qed.

Lemma run_app (st : Hub) (evs1 evs2 : list Event) :
  run st (evs1 ++ evs2) =
    let '(st1, out1) := run st evs1 in
    let '(st2, out2) := run st1 evs2 in
    (st2, out1 ++ out2).
Proof.
  revert st. induction evs1 as [|ev evs1 IH]; intros st; simpl.
  - by destruct (run st evs2).
  - destruct (handle st ev) as [st1 out1]. rewrite IH.
    destruct (run st1 evs1) as [st2 out2].
    destruct (run st2 evs2) as [st3 out3]. by rewrite app_assoc.
Qed.

Lemma run_snoc (st : Hub) (evs : list Event) (ev : Event) :
  (run st (evs ++ [ev])).1 = (handle (run st evs).1 ev).1.
Proof.
  rewrite run_app. destruct (run st evs) as [st1 out1]. simpl.
  by destruct (handle st1 ev).
Qed.

(** Induction over the states the hub can be in. *)
Lemma reachable_ind (P : Hub → Prop) :
  P init →
  (∀ st ev, reachable st → P st → P (handle st ev).1) →
  ∀ st, reachable st → P st.
Proof.
  intros Hinit Hstep st [evs <-].
  induction evs as [|ev evs IH] using rev_ind; [done|].
  rewrite run_snoc. apply Hstep; [by exists evs|done].
Qed.

Lemma reachable_history_ok (st : Hub) : reachable st → history_ok st.
Proof.
  revert st. apply reachable_ind.
  - intros user hist. unfold init. simpl. by rewrite lookup_empty.
  - intros st ev _. apply handle_history_ok.
Qed.

(** ** The registry under one event *)

Lemma lookup_register_socket (us : gmap string (list string))
  (user s u : string) :
  register_socket us user s !! u =
    if decide (user = u) then Some (Set_add s (default [] (us !! u)))
    else us !! u.
Proof.
  unfold register_socket.
  destruct (decide (is_Some (us !! user))) as [[members Hm]|Hnone].
  - rewrite lookup_insert. case_decide; by subst.
  - apply eq_None_not_Some in Hnone.
    rewrite lookup_insert, lookup_insert_eq.
    case_decide; subst.
    + by rewrite Hnone.
    + rewrite lookup_insert. by case_decide.
Qed.

Lemma lookup_unregister_socket (us : gmap string (list string))
  (s : string) (socket : Socket) (u : string) :
  unregister_socket us s socket !! u =
    if decide (userId socket = Some u ∧ truthy u = true) then
      match us !! u with
      | Some members =>
          if decide (length (Set_delete s members) = 0) then None
          else Some (Set_delete s members)
      | None => None
      end
    else us !! u.
Proof.
  unfold unregister_socket.
  destruct (userId socket) as [user|] eqn:Hu;
    [|case_decide as H; [by destruct H|done]].
  destruct (truthy user) eqn:Ht.
  - destruct (decide (user = u)) as [->|Hne].
    + rewrite decide_True by done.
      destruct (us !! u) as [members|] eqn:Hm; [|done].
      case_decide.
      * by rewrite lookup_delete_eq.
      * by rewrite lookup_insert_eq.
    + rewrite decide_False by (intros [[= ?] _]; done).
      destruct (us !! user) as [members|]; [|done].
      case_decide.
      * by rewrite lookup_delete_ne.
      * by rewrite lookup_insert_ne.
  - case_decide as H; [|done]. destruct H as [[= ->] H]. congruence.
Qed.

(** The members of a user's set after a socket leaves. *)
Lemma members_unregister_socket (us : gmap string (list string))
  (s : string) (socket : Socket) (u : string) :
  default [] (unregister_socket us s socket !! u) =
    if decide (userId socket = Some u ∧ truthy u = true)
    then Set_delete s (default [] (us !! u))
    else default [] (us !! u).
Proof.
  rewrite lookup_unregister_socket. case_decide; [|done].
  destruct (us !! u) as [members|]; [|done]. simpl.
  case_decide as Hlen; [|done]. simpl.
  by apply nil_length_inv in Hlen.
Qed.

(** What an event does to the registry and to the live sockets. *)
Lemma handle_registry (st : Hub) (ev : Event) :
  let st' := (handle st ev).1 in
  (userSockets st' = userSockets st ∧ sockets st' = sockets st)
  ∨ (∃ s, sockets st !! s = None
          ∧ userSockets st' = userSockets st
          ∧ sockets st' = <[s := {| userId := None |}]> (sockets st))
  ∨ (∃ s socket user,
       sockets st !! s = Some socket
       ∧ userSockets st' = register_socket (userSockets st) user s
       ∧ sockets st' = <[s := {| userId := Some user |}]> (sockets st))
  ∨ (∃ s socket,
       sockets st !! s = Some socket
       ∧ userSockets st' = unregister_socket (userSockets st) s socket
       ∧ sockets st' = delete s (sockets st)).
Proof.
  destruct ev; handler_cases; try (by left).
  - right; left. by eexists.
  - right; right; left. by eexists _, _, _.
  - right; right; right. by eexists _, _.
  - right; right; right. by eexists _, _.
Qed.

Lemma handle_registry_ok (st : Hub) (ev : Event) :
  registry_ok st → registry_ok (handle st ev).1.
Proof.
  intros [Hsets Hlive]. unfold registry_ok, connectionsFor in *.
  destruct (handle_registry st ev)
    as [[-> ->]|[(s & Hs & -> & ->)|[(s & socket & user & Hs & -> & ->)
                                    |(s & socket & Hs & -> & ->)]]].
  - done.
  - split; [done|]. intros s' socket' user'.
    rewrite lookup_insert. case_decide; [by intros [= <-]|]. apply Hlive.
  - split.
    + intros u members. rewrite lookup_register_socket.
      case_decide; [|apply Hsets]. intros [= <-]. split.
      * apply Set_add_NoDup.
        destruct (userSockets st !! u) as [m|] eqn:Hm; simpl; [|constructor].
        by apply (Hsets u).
      * intros Hnil. assert (s ∈ Set_add s (default [] (userSockets st !! u)))
          as Hin by (apply Set_add_elem; auto).
        rewrite Hnil in Hin. by apply elem_of_nil in Hin.
    + intros s' socket' user'. rewrite lookup_insert, lookup_register_socket.
      case_decide as Hss.
      * intros [= <-]. simpl. intros [= <-]. rewrite decide_True by done.
        simpl. apply Set_add_elem. auto.
      * intros Hs' Hu'. specialize (Hlive _ _ _ Hs' Hu').
        case_decide; [|done]. subst. simpl. apply Set_add_elem. auto.
  - split.
    + intros u members. rewrite lookup_unregister_socket.
      case_decide; [|apply Hsets].
      destruct (userSockets st !! u) as [m|] eqn:Hm; [|done].
      case_decide as Hlen; [done|]. intros [= <-]. split.
      * apply Set_delete_NoDup. by apply (Hsets u).
      * intros Hnil. by rewrite Hnil in Hlen.
    + intros s' socket' user'. rewrite lookup_delete.
      case_decide as Hss; [done|].
      intros Hs' Hu'. specialize (Hlive _ _ _ Hs' Hu').
      rewrite members_unregister_socket. case_decide; [|done].
      apply Set_delete_elem. split; [congruence|done].
Qed.

Lemma reachable_registry_ok (st : Hub) : reachable st → registry_ok st.
Proof.
  revert st. apply reachable_ind.
  - split.
    + intros user members. unfold init. simpl. by rewrite lookup_empty.
    + intros s socket user. unfold init. simpl. by rewrite lookup_empty.
  - intros st ev _. apply handle_registry_ok.
Qed.

(** ** Broadcasts *)

Lemma broadcast_all (st : Hub) (user : string) (m : Message) :
  broadcastToUserDevices st user m None
  = (λ c, (c, m)) <$> connectionsFor st user.
Proof.
  unfold broadcastToUserDevices, connectionsFor.
  destruct (userSockets st !! user) as [members|]; [|done]. simpl.
  induction members as [|c members IH]; [done|]. simpl. by rewrite IH.
Qed.

Lemma broadcast_except (st : Hub) (user : string) (m : Message) (s : string) :
  broadcastToUserDevices st user m (Some s)
  = (λ c, (c, m)) <$> Set_delete s (connectionsFor st user).
Proof.
  unfold broadcastToUserDevices, connectionsFor, Set_delete.
  destruct (userSockets st !! user) as [members|]; [|done]. simpl.
  induction members as [|c members IH]; [done|]. simpl.
  rewrite filter_cons. destruct (decide (c = s)) as [->|Hne].
  - rewrite decide_False by (intros H; by apply H).
    rewrite decide_False by (intros H; by apply H). done.
  - rewrite decide_True by congruence. rewrite decide_True by done.
    simpl. by rewrite IH.
Qed.

Lemma elem_of_addressed (c : string) (m m' : Message) (l : list string) :
  (c, m) ∈ (λ x, (x, m')) <$> l ↔ m = m' ∧ c ∈ l.
Proof.
  rewrite list_elem_of_fmap. split.
  - by intros (x & [= -> ->] & Hx).
  - intros [-> Hc]. by exists c.
Qed.

(** The handler of [clipboard_update] on an authenticated socket. *)
Lemma handle_clipboard_update (st : Hub) (s : string) (socket : Socket)
  (user : string) (d : data.t) (now date : Z) :
  sockets st !! s = Some socket → userId socket = Some user →
  truthy user = true →
  let item := make_item toISOString d now date in
  let hist' := push (default [] (clipboardHistory st !! user)) item in
  handle st (clipboard_update s d now date)
  = ({| clipboardHistory := <[user := hist']> (clipboardHistory st);
        userSockets := userSockets st;
        sockets := sockets st |},
     ((λ c, (c, clipboard_sync item)) <$> Set_delete s (connectionsFor st user))
     ++ ((λ c, (c, history hist')) <$> connectionsFor st user)).
Proof.
  intros Hs Hu Ht. simpl. unfold on_socket, on_clipboard_update.
  rewrite Hs, Hu, Ht. by rewrite broadcast_except, broadcast_all.
Qed.

(** The new entry is always the first one of the updated history. *)
Lemma push_head (hist : list ClipboardItem) (clipboardItem : ClipboardItem) :
  head (push hist clipboardItem) = Some clipboardItem.
Proof.
  unfold push, unshift.
  destruct (match findIndex (same_content clipboardItem) hist with
            | Some i => splice1 i hist
            | None => hist
            end) as [|x l]; simpl; [done|by case_decide].
Qed.

(** Pushing an entry whose content and type are already present, on a
    history within the bound: the first match is cut out, the new entry
    is put in front and the length stays. *)
Lemma push_duplicate (hist : list ClipboardItem) (item e : ClipboardItem) :
  length hist ≤ MAX_HISTORY → e ∈ hist → key e = key item →
  ∃ i l1 e' l2,
    findIndex (same_content item) hist = Some i
    ∧ hist = l1 ++ e' :: l2 ∧ length l1 = i
    ∧ key e' = key item
    ∧ (∀ x, x ∈ l1 → key x ≠ key item)
    ∧ push hist item = item :: l1 ++ l2
    ∧ length (push hist item) = length hist.
Proof.
  intros Hlen He Hk.
  destruct (scan_cases hist item)
    as [[_ Hne]|(i & l1 & e' & l2 & Hf & Hh & Hs & Hi & He' & Hne)].
  - by destruct (Hne e He).
  - exists i, l1, e', l2.
    assert (push hist item = item :: l1 ++ l2) as Hp.
    { rewrite (push_match _ _ _ _ _ Hf Hs). rewrite decide_False; [done|].
      rewrite Hh in Hlen. rewrite length_app in *. simpl in Hlen. lia. }
    split_and!; try done.
    rewrite Hp, Hh. simpl. rewrite !length_app. simpl. lia.
Qed.

(** ** Ids *)

Lemma push_sublist (hist : list ClipboardItem) (clipboardItem : ClipboardItem) :
  push hist clipboardItem `sublist_of` clipboardItem :: hist.
Proof.
  destruct (scan_cases hist clipboardItem)
    as [[Hf _]|(i & l1 & e & l2 & Hf & Hh & Hs & _)].
  - rewrite push_no_match by done. case_decide; [apply pop_sublist|done].
  - rewrite (push_match _ _ _ _ _ Hf Hs).
    assert (clipboardItem :: l1 ++ l2 `sublist_of` clipboardItem :: hist) as Hsub.
    { rewrite Hh. apply sublist_skip, sublist_app; [done|].
      by apply sublist_cons. }
    case_decide; [|done]. etrans; [apply pop_sublist|done].
Qed.

(** X25.  As long as no two updates read the same value of the clock, the ids
    within every stored history are distinct, and each one is the numeral
    of a reading. *)
Lemma ids_distinct_when_readings_differ (evs : list Event) :
  NoDup (clock_readings evs) →
  ∀ user hist,
    clipboardHistory (run init evs).1 !! user = Some hist →
    NoDup (id <$> hist)
    ∧ ∀ x, x ∈ hist → ∃ n, n ∈ clock_readings evs ∧ id x = Date_now_toString n.
Proof.
  induction evs as [|ev evs IH] using rev_ind.
  - intros _ user hist. simpl. by rewrite lookup_empty.
  - unfold clock_readings in *. rewrite bind_app. simpl. rewrite app_nil_r.
    intros (Hnd & Hdisj & _)%NoDup_app. specialize (IH Hnd).
    rewrite run_snoc. set (st := (run init evs).1) in *.
    assert (∀ user,
              NoDup (id <$> default [] (clipboardHistory st !! user))
              ∧ ∀ x, x ∈ default [] (clipboardHistory st !! user) →
                     ∃ n, n ∈ evs ≫= update_clock ∧ id x = Date_now_toString n)
      as Hold.
    { intros user. destruct (clipboardHistory st !! user) as [h|] eqn:Hh; simpl.
      - by apply (IH user).
      - split; [constructor|]. intros x Hx. by apply elem_of_nil in Hx. }
    assert (∀ (l l0 : list ClipboardItem),
              l `sublist_of` l0 →
              NoDup (id <$> l0)
              ∧ (∀ x, x ∈ l0 → ∃ n, n ∈ (evs ≫= update_clock) ++ update_clock ev
                                    ∧ id x = Date_now_toString n) →
              NoDup (id <$> l)
              ∧ (∀ x, x ∈ l → ∃ n, n ∈ (evs ≫= update_clock) ++ update_clock ev
                                   ∧ id x = Date_now_toString n)) as Hsub.
    { intros l l0 Hl [Hl0 Hin]. split.
      - eapply sublist_NoDup; [exact Hl0|]. by apply fmap_sublist.
      - intros x Hx. apply Hin. by eapply elem_of_sublist. }
    assert (∀ user x, x ∈ default [] (clipboardHistory st !! user) →
              ∃ n, n ∈ (evs ≫= update_clock) ++ update_clock ev
                   ∧ id x = Date_now_toString n) as Hweak.
    { intros user x Hx. destruct (proj2 (Hold user) x Hx) as (n & Hn & Hid).
      exists n. split; [|done]. apply elem_of_app. by left. }
    intros user hist.
    destruct (handle_history st ev) as [->|(u & hist' & -> & Hcase)].
    { intros Hh. pose proof (Hold user) as [Hn Hin]. rewrite Hh in Hn, Hin.
      split; [done|]. intros x Hx. apply (Hweak user). by rewrite Hh. }
    rewrite lookup_insert. case_decide as Hu; [subst u|].
    2:{ intros Hh. pose proof (Hold user) as [Hn Hin]. rewrite Hh in Hn, Hin.
        split; [done|]. intros x Hx. apply (Hweak user). by rewrite Hh. }
    intros [= <-].
    destruct Hcase as [->|[(s & d & now & date & -> & ->)|[itemId ->]]].
    + split; [constructor|]. intros x Hx. by apply elem_of_nil in Hx.
    + eapply Hsub; [apply push_sublist|]. split.
      * rewrite fmap_cons. apply NoDup_cons. split; [|apply Hold].
        intros (x & Hid & Hx)%list_elem_of_fmap.
        destruct (proj2 (Hold user) x Hx) as (n & Hn & Hidn).
        simpl in Hid. rewrite Hidn in Hid. unfold Date_now_toString in Hid.
        apply (inj pretty) in Hid. subst n.
        apply (Hdisj now Hn). by left.
      * intros x [->|Hx]%elem_of_cons; [|by apply (Hweak user)].
        exists now. split; [|done]. apply elem_of_app. right. by left.
    + eapply Hsub; [apply sublist_filter|]. split; [apply Hold|apply Hweak].
Qed.

(** ** Re-authentication *)

(** A successful [authenticate] adds the socket to the set of the token's
    user and takes it out of no set. *)
Lemma authenticate_keeps_registrations (st : Hub) (s : string)
  (socket : Socket) (token user : string) :
  sockets st !! s = Some socket → jwt_verify token = Some user →
  let st' := (handle st (authenticate s token)).1 in
  s ∈ connectionsFor st' user
  ∧ ∀ u c, c ∈ connectionsFor st u → c ∈ connectionsFor st' u.
Proof.
  intros Hs Hv st'. subst st'. simpl. unfold on_socket. rewrite Hs.
  unfold on_authenticate. rewrite Hv. unfold connectionsFor. simpl. split.
  - rewrite lookup_register_socket, decide_True by done. simpl.
    apply Set_add_elem. by left.
  - intros u c Hc. rewrite lookup_register_socket. case_decide; [|done].
    simpl. apply Set_add_elem. by right.
Qed.

Lemma NoDup_only (l : list string) (b : string) :
  NoDup l → (∀ c, c ∈ l ↔ c = b) → l = [b].
Proof.
  intros Hnd Hl. destruct l as [|x [|y l]].
  - assert (b ∈ @nil string) as H by by apply Hl. by apply elem_of_nil in H.
  - f_equal. apply Hl. by left.
  - assert (x = b) as -> by (apply Hl; by left).
    assert (y = b) as -> by (apply Hl; right; by left).
    apply NoDup_cons in Hnd as [Hnotin _]. destruct Hnotin. by left.
Qed.

(** ** The claims *)

(** C1.  In a reachable state, let A and B be two live sockets
    authenticated for the same user U.  When A sends [clipboard_update],
    the hub stores the pushed history for U and emits, in this order, a
    [clipboard_sync] packet with the new item to every member of U's set
    except A, then a [history] packet with the whole updated history to
    every member of U's set.  A and B are members, no member is listed
    twice, so B gets the item once, A gets no [clipboard_sync], and both
    get the updated history. *)
Theorem clipboard_update_fan_out (st : Hub) (A B U : string)
  (sockA sockB : Socket) (d : data.t) (now date : Z) :
  reachable st →
  sockets st !! A = Some sockA → userId sockA = Some U →
  sockets st !! B = Some sockB → userId sockB = Some U →
  truthy U = true → A ≠ B →
  let item := make_item toISOString d now date in
  let hist' := push (default [] (clipboardHistory st !! U)) item in
  let st' := (handle st (clipboard_update A d now date)).1 in
  let out := (handle st (clipboard_update A d now date)).2 in
  clipboardHistory st' !! U = Some hist'
  ∧ out = ((λ c, (c, clipboard_sync item)) <$> Set_delete A (connectionsFor st U))
          ++ ((λ c, (c, history hist')) <$> connectionsFor st U)
  ∧ NoDup (connectionsFor st U)
  ∧ A ∈ connectionsFor st U ∧ B ∈ connectionsFor st U
  ∧ (∀ c m, (c, clipboard_sync m) ∈ out
            ↔ m = item ∧ c ∈ connectionsFor st U ∧ c ≠ A)
  ∧ (∀ c h, (c, history h) ∈ out ↔ h = hist' ∧ c ∈ connectionsFor st U)
  ∧ (B, clipboard_sync item) ∈ out
  ∧ (∀ m, (A, clipboard_sync m) ∉ out)
  ∧ (A, history hist') ∈ out
  ∧ (B, history hist') ∈ out.
Proof.
  intros Hreach HA HuA HB HuB Ht Hne item hist' st' out.
  destruct (reachable_registry_ok st Hreach) as [Hsets Hlive].
  assert (A ∈ connectionsFor st U) as HAin by by eapply Hlive.
  assert (B ∈ connectionsFor st U) as HBin by by eapply Hlive.
  assert (NoDup (connectionsFor st U)) as Hnd.
  { unfold connectionsFor.
    destruct (userSockets st !! U) as [m|] eqn:Hm; simpl; [|constructor].
    by apply (Hsets U). }
  assert (∀ c m, (c, clipboard_sync m) ∈ out
                 ↔ m = item ∧ c ∈ connectionsFor st U ∧ c ≠ A) as Hsync.
  { intros c m. subst out st'.
    rewrite (handle_clipboard_update st A sockA U d now date HA HuA Ht).
    simpl. rewrite elem_of_app, !elem_of_addressed, Set_delete_elem.
    split.
    - intros [([= ->] & ? & ?)|[[=] _]]. done.
    - intros (-> & ? & ?). left. done. }
  assert (∀ c h, (c, history h) ∈ out ↔ h = hist' ∧ c ∈ connectionsFor st U)
    as Hhist.
  { intros c h. subst out st'.
    rewrite (handle_clipboard_update st A sockA U d now date HA HuA Ht).
    simpl. rewrite elem_of_app, !elem_of_addressed.
    split.
    - intros [[[=] _]|[[= ->] ?]]. done.
    - intros [-> ?]. right. done. }
  split_and!; try done.
  - subst st'.
    rewrite (handle_clipboard_update st A sockA U d now date HA HuA Ht).
    simpl. apply lookup_insert_eq.
  - subst out.
    by rewrite (handle_clipboard_update st A sockA U d now date HA HuA Ht).
  - apply Hsync. done.
  - intros m [_ [_ Hc]]%Hsync. done.
  - apply Hhist. done.
  - apply Hhist. done.
Qed.

(** C2.  After any sequence of events, starting from the empty stores,
    no stored history is longer than [MAX_HISTORY], which is 10. *)
Theorem history_never_exceeds_max (evs : list Event) (user : string)
  (hist : list ClipboardItem) :
  clipboardHistory (run init evs).1 !! user = Some hist →
  length hist ≤ MAX_HISTORY ∧ MAX_HISTORY = 10.
Proof.
  intros Hh. split; [|done].
  assert (reachable (run init evs).1) as Hreach by by exists evs.
  by apply (reachable_history_ok _ Hreach user hist).
Qed.

(** C3.  After any sequence of events, starting from the empty stores,
    two entries of a stored history that agree on content and type are
    the same entry: they sit at the same index. *)
Theorem history_has_no_duplicates (evs : list Event) (user : string)
  (hist : list ClipboardItem) (i j : nat) (x y : ClipboardItem) :
  clipboardHistory (run init evs).1 !! user = Some hist →
  hist !! i = Some x → hist !! j = Some y →
  content x = content y → type x = type y →
  i = j.
Proof.
  intros Hh Hi Hj Hc Ht.
  assert (reachable (run init evs).1) as Hreach by by exists evs.
  destruct (reachable_history_ok _ Hreach user hist Hh) as [_ Hnd].
  apply (proj1 (NoDup_alt _) Hnd i j (key x)).
  - by rewrite list_lookup_fmap, Hi.
  - rewrite list_lookup_fmap, Hj. simpl. unfold key. by rewrite Hc, Ht.
Qed.

(** C4.  Let [hist] be a history within the bound and let the item built
    from an update agree in content and type with an entry of [hist].
    Then [hist] splits around its first such entry, the pushed history
    is the new item followed by the rest of [hist] in order, its length
    is that of [hist], and the new item carries the id made from the
    clock reading, the timestamp of the second reading and the device
    fields of the update. *)
Theorem push_existing_moves_to_front (hist : list ClipboardItem)
  (d : data.t) (now date : Z) (e : ClipboardItem) :
  let item := make_item toISOString d now date in
  length hist ≤ MAX_HISTORY →
  e ∈ hist → content e = content item → type e = type item →
  ∃ l1 e' l2,
    hist = l1 ++ e' :: l2
    ∧ content e' = content item ∧ type e' = type item
    ∧ (∀ x, x ∈ l1 → ¬ (content x = content item ∧ type x = type item))
    ∧ push hist item = item :: l1 ++ l2
    ∧ length (push hist item) = length hist
    ∧ id item = Date_now_toString now
    ∧ timestamp item = toISOString date
    ∧ deviceId item = data.deviceId d
    ∧ deviceName item = data.deviceName d.
Proof.
  intros item Hlen He Hc Ht.
  assert (key e = key item) as Hk by (unfold key; by rewrite Hc, Ht).
  destruct (push_duplicate hist item e Hlen He Hk)
    as (i & l1 & e' & l2 & _ & Hh & _ & [= Hc' Ht'] & Hne & Hp & Hl).
  exists l1, e', l2. split_and!; try done.
  intros x Hx [Hxc Hxt]. apply (Hne x Hx). unfold key. by rewrite Hxc, Hxt.
Qed.

(** C7.  On a live socket whose [userId] is unset (or falsy), each of
    [clipboard_update], [clear_history] and [delete_item] leaves the
    three stores as they are and emits one packet only: an [error] to
    that socket. *)
Theorem unauthenticated_actions_rejected (st : Hub) (s : string)
  (socket : Socket) :
  sockets st !! s = Some socket →
  truthy_opt (userId socket) = false →
  (∀ d now date,
     handle st (clipboard_update s d now date)
     = (st, [(s, error "Not authenticated")]))
  ∧ handle st (clear_history s) = (st, [(s, error "Not authenticated")])
  ∧ (∀ itemId,
       handle st (delete_item s itemId)
       = (st, [(s, error "Not authenticated")])).
Proof.
  intros Hs Hu. unfold truthy_opt in Hu.
  split_and!; intros; simpl; unfold on_socket; rewrite Hs;
    unfold on_clipboard_update, on_clear_history, on_delete_item;
    destruct (userId socket) as [user|]; try done; by rewrite Hu.
Qed.


(** X29.  When a live socket A disconnects it is no longer live.  If it
    carries user U and U has a set in the registry, A leaves that set:
    a later broadcast for U addresses the other members only, so with B
    another member B is addressed and A is not, and when A and B are the
    only members the broadcast is the single packet to B.  When the set
    becomes empty U's entry is removed from the registry, otherwise the
    entry holds the remaining members; the sets of other users do not
    change.  A socket that never authenticated leaves the registry as it
    is. *)
Theorem disconnect_unregisters (st : Hub) (A : string) (sockA : Socket) :
  sockets st !! A = Some sockA →
  let st' := (handle st (disconnect A)).1 in
  sockets st' = delete A (sockets st)
  ∧ (userId sockA = None → userSockets st' = userSockets st)
  ∧ (∀ U members,
       userId sockA = Some U → truthy U = true →
       userSockets st !! U = Some members →
       connectionsFor st' U = Set_delete A members
       ∧ (A ∉ connectionsFor st' U)
       ∧ (∀ m, broadcastToUserDevices st' U m None
               = (λ c, (c, m)) <$> Set_delete A members)
       ∧ (∀ B m, B ∈ members → B ≠ A →
                 (B, m) ∈ broadcastToUserDevices st' U m None
                 ∧ ∀ m', (A, m') ∉ broadcastToUserDevices st' U m None)
       ∧ (∀ B m, NoDup members → B ∈ members → B ≠ A →
                 (∀ c, c ∈ members → c = A ∨ c = B) →
                 broadcastToUserDevices st' U m None = [(B, m)])
       ∧ (Set_delete A members = [] → userSockets st' !! U = None)
       ∧ (Set_delete A members ≠ [] →
          userSockets st' !! U = Some (Set_delete A members))
       ∧ (∀ user, user ≠ U →
                  userSockets st' !! user = userSockets st !! user)).
Proof.
  intros HA st'. subst st'. simpl. unfold on_socket. rewrite HA. simpl.
  split_and!; [done| |].
  { intros Hu. unfold unregister_socket. by rewrite Hu. }
  intros U members Hu Ht Hm.
  set (st' := {| clipboardHistory := clipboardHistory st;
                 userSockets := unregister_socket (userSockets st) A sockA;
                 sockets := delete A (sockets st) |}).
  assert (connectionsFor st' U = Set_delete A members) as Hconn.
  { unfold connectionsFor, st'. simpl. rewrite members_unregister_socket.
    rewrite decide_True by done. by rewrite Hm. }
  assert (∀ m, broadcastToUserDevices st' U m None
               = (λ c, (c, m)) <$> Set_delete A members) as Hbc.
  { intros m. by rewrite broadcast_all, Hconn. }
  split_and!; try done.
  - rewrite Hconn. by intros [? _]%Set_delete_elem.
  - intros B m HB Hne. rewrite Hbc. split.
    + apply elem_of_addressed. split; [done|]. by apply Set_delete_elem.
    + intros m' [_ [? _]%Set_delete_elem]%elem_of_addressed. done.
  - intros B m Hnd HB Hne Honly. rewrite Hbc.
    rewrite (NoDup_only (Set_delete A members) B); [done| |].
    + by apply Set_delete_NoDup.
    + intros c. rewrite Set_delete_elem. split.
      * intros [Hc Hin]. by destruct (Honly c Hin).
      * by intros ->.
  - intros Hnil. unfold st'. simpl. rewrite lookup_unregister_socket.
    rewrite decide_True by done. rewrite Hm, Hnil. done.
  - intros Hnil. unfold st'. simpl. rewrite lookup_unregister_socket.
    rewrite decide_True by done. rewrite Hm.
    rewrite decide_False; [done|]. intros Hlen.
    by apply nil_length_inv in Hlen.
  - intros user Hne. unfold st'. simpl. rewrite lookup_unregister_socket.
    rewrite decide_False; [done|]. intros [Hu' _]. congruence.
Qed.

(** C10.  Let an authenticated socket send a [clipboard_update] whose
    [type] is missing or the empty string.  The entry the hub stores, at
    the front of the user's history, has type ["text"] and the content
    of the update.  If the history, within the bound, already has an
    entry with that content and type ["text"], the scan finds it: the
    first such entry is cut out and the new one takes the front. *)
Theorem missing_type_defaults_to_text (st : Hub) (s : string)
  (socket : Socket) (U : string) (d : data.t) (now date : Z) :
  sockets st !! s = Some socket → userId socket = Some U →
  truthy U = true →
  truthy_opt (data.type d) = false →
  let st' := (handle st (clipboard_update s d now date)).1 in
  let hist := default [] (clipboardHistory st !! U) in
  ∃ item,
    item = make_item toISOString d now date
    ∧ clipboardHistory st' !! U = Some (push hist item)
    ∧ head (push hist item) = Some item
    ∧ type item = "text" ∧ content item = data.content d
    ∧ ∀ e, length hist ≤ MAX_HISTORY →
           e ∈ hist → content e = data.content d → type e = "text" →
           ∃ i l1 e' l2,
             findIndex (same_content item) hist = Some i
             ∧ hist = l1 ++ e' :: l2 ∧ length l1 = i
             ∧ content e' = data.content d ∧ type e' = "text"
             ∧ (∀ x, x ∈ l1 →
                     ¬ (content x = data.content d ∧ type x = "text"))
             ∧ push hist item = item :: l1 ++ l2.
Proof.
  intros Hs Hu Ht Hty st' hist.
  exists (make_item toISOString d now date).
  assert (type (make_item toISOString d now date) = "text") as Htext.
  { simpl. unfold or_default. unfold truthy_opt in Hty.
    destruct (data.type d) as [t|]; [by rewrite Hty|done]. }
  split_and!; try done.
  - subst st'. rewrite (handle_clipboard_update st s socket U d now date Hs Hu Ht).
    simpl. apply lookup_insert_eq.
  - apply push_head.
  - intros e Hlen He Hc Hte.
    assert (key e = key (make_item toISOString d now date)) as Hk.
    { unfold key. by rewrite Hc, Hte, Htext. }
    destruct (push_duplicate hist _ e Hlen He Hk)
      as (i & l1 & e' & l2 & Hf & Hh & Hi & Hk' & Hne & Hp & _).
    exists i, l1, e', l2. unfold key in Hk'. rewrite Htext in Hk'.
    simpl in Hk'. injection Hk' as Hc' Ht'.
    split_and!; try done.
    intros x Hx [Hxc Hxt]. apply (Hne x Hx). unfold key.
    by rewrite Hxc, Hxt, Htext.
Qed.

(** ** Further properties of the socket handlers *)

Lemma Set_add_present (x : string) (s : list string) :
  x ∈ s → Set_add x s = s.
Proof. intros Hx. unfold Set_add. by rewrite decide_True. Qed.

Lemma register_socket_twice (us : gmap string (list string)) (user s : string) :
  register_socket (register_socket us user s) user s = register_socket us user s.
Proof.
  apply map_eq. intros u. rewrite !lookup_register_socket.
  case_decide; [|done]. subst. simpl.
  f_equal. apply Set_add_present, Set_add_elem. by left.
Qed.

Lemma remove_id_twice (itemId : string) (hist : list ClipboardItem) :
  remove_id itemId (remove_id itemId hist) = remove_id itemId hist.
Proof.
  unfold remove_id. induction hist as [|x hist IH]; [done|].
  rewrite filter_cons. case_decide as Hx; [|done].
  rewrite filter_cons, decide_True by done. by rewrite IH.
Qed.

Lemma remove_id_absent (itemId : string) (hist : list ClipboardItem) :
  (∀ x, x ∈ hist → id x ≠ itemId) → remove_id itemId hist = hist.
Proof.
  unfold remove_id. induction hist as [|x hist IH]; intros Hne; [done|].
  rewrite filter_cons, decide_True by (apply Hne; by left).
  rewrite IH; [done|]. intros y Hy. apply Hne. by right.
Qed.

Lemma broadcast_message (st : Hub) (user : string) (m m' : Message)
  (ex : option string) (c : string) :
  (c, m) ∈ broadcastToUserDevices st user m' ex →
  m = m' ∧ c ∈ connectionsFor st user.
Proof.
  destruct ex as [s|].
  - rewrite broadcast_except. intros [? [_ ?]%Set_delete_elem]%elem_of_addressed.
    done.
  - rewrite broadcast_all. by intros ?%elem_of_addressed.
Qed.

(** X1.  A live socket that sends a token that verifies for [user] gets
    one packet, the history stored for [user] (empty when none is
    stored), and nobody else gets anything.  The socket now carries
    [user] and is a member of [user]'s set, next to the members that were
    there; histories, other sockets and the sets of other users are as
    before. *)
Theorem authenticate_success_snapshot (st : Hub) (s : string)
  (socket : Socket) (token user : string) :
  sockets st !! s = Some socket →
  jwt_verify token = Some user →
  let st' := (handle st (authenticate s token)).1 in
  let out := (handle st (authenticate s token)).2 in
  out = [(s, history (default [] (clipboardHistory st !! user)))]
  ∧ clipboardHistory st' = clipboardHistory st
  ∧ sockets st' !! s = Some {| userId := Some user |}
  ∧ (∀ s', s' ≠ s → sockets st' !! s' = sockets st !! s')
  ∧ connectionsFor st' user = Set_add s (connectionsFor st user)
  ∧ s ∈ connectionsFor st' user
  ∧ (∀ c, c ∈ connectionsFor st user → c ∈ connectionsFor st' user)
  ∧ (∀ u, u ≠ user → userSockets st' !! u = userSockets st !! u).
Proof.
  intros Hs Hv st' out. subst st' out. simpl. unfold on_socket. rewrite Hs.
  unfold on_authenticate. rewrite Hv. unfold connectionsFor. simpl.
  rewrite lookup_register_socket, decide_True by done. simpl.
  split_and!; try done.
  - apply lookup_insert_eq.
  - intros s' Hne. by apply lookup_insert_ne.
  - apply Set_add_elem. by left.
  - intros c Hc. apply Set_add_elem. by right.
  - intros u Hne. rewrite lookup_register_socket. by rewrite decide_False.
Qed.

(** X2.  Authenticating a second time for the same user changes nothing:
    the stores after the second [authenticate] are those after the first,
    the socket is not listed twice, and the second answer is the same
    history snapshot. *)
Theorem authenticate_again_changes_nothing (st : Hub) (s : string)
  (socket : Socket) (token1 token2 user : string) :
  sockets st !! s = Some socket →
  jwt_verify token1 = Some user →
  jwt_verify token2 = Some user →
  let st1 := (handle st (authenticate s token1)).1 in
  handle st1 (authenticate s token2)
  = (st1, [(s, history (default [] (clipboardHistory st !! user)))]).
Proof.
  intros Hs Hv1 Hv2 st1. subst st1. simpl. unfold on_socket. rewrite Hs.
  unfold on_authenticate. rewrite Hv1. simpl.
  rewrite lookup_insert_eq, Hv2. simpl.
  by rewrite register_socket_twice, insert_insert_eq.
Qed.

(** X3.  [clear_history] from an authenticated socket stores the empty
    history for its user and sends [history []] to every member of that
    user's set, the sender included when the state is reachable; other
    users' histories, the registry and the sockets are untouched. *)
Theorem clear_history_empties (st : Hub) (s : string) (socket : Socket)
  (U : string) :
  sockets st !! s = Some socket → userId socket = Some U →
  truthy U = true →
  let st' := (handle st (clear_history s)).1 in
  let out := (handle st (clear_history s)).2 in
  clipboardHistory st' !! U = Some []
  ∧ (∀ V, V ≠ U → clipboardHistory st' !! V = clipboardHistory st !! V)
  ∧ userSockets st' = userSockets st
  ∧ sockets st' = sockets st
  ∧ out = (λ c, (c, history [])) <$> connectionsFor st U
  ∧ (reachable st → (s, history []) ∈ out).
Proof.
  intros Hs Hu Ht st' out. subst st' out. simpl. unfold on_socket.
  rewrite Hs. unfold on_clear_history. rewrite Hu, Ht. simpl.
  rewrite broadcast_all. unfold connectionsFor. simpl.
  split_and!; try done.
  - apply lookup_insert_eq.
  - intros V Hne. by apply lookup_insert_ne.
  - intros Hreach. apply elem_of_addressed. split; [done|].
    destruct (reachable_registry_ok st Hreach) as [_ Hlive].
    by apply (Hlive s socket U).
Qed.

(** The handler of [delete_item] on an authenticated socket. *)
Lemma handle_delete_item (st : Hub) (s : string) (socket : Socket)
  (U itemId : string) :
  sockets st !! s = Some socket → userId socket = Some U →
  truthy U = true →
  let newHistory := remove_id itemId (default [] (clipboardHistory st !! U)) in
  handle st (delete_item s itemId)
  = ({| clipboardHistory := <[U := newHistory]> (clipboardHistory st);
        userSockets := userSockets st;
        sockets := sockets st |},
     (λ c, (c, history newHistory)) <$> connectionsFor st U).
Proof.
  intros Hs Hu Ht. simpl. unfold on_socket, on_delete_item.
  rewrite Hs, Hu, Ht. by rewrite broadcast_all.
Qed.

(** X4.  [delete_item] from an authenticated socket keeps, in order, the
    entries whose id differs from [itemId] and sends the result to every
    member of the user's set.  When no entry has that id the entries are
    the same as before and the broadcast still goes out; deleting the
    same id again changes nothing and sends the same packets.  Other
    users' histories are untouched. *)
Theorem delete_item_removes_by_id (st : Hub) (s : string) (socket : Socket)
  (U itemId : string) :
  sockets st !! s = Some socket → userId socket = Some U →
  truthy U = true →
  let hist := default [] (clipboardHistory st !! U) in
  let st' := (handle st (delete_item s itemId)).1 in
  let out := (handle st (delete_item s itemId)).2 in
  clipboardHistory st' !! U = Some (remove_id itemId hist)
  ∧ (∀ x, x ∈ remove_id itemId hist ↔ x ∈ hist ∧ id x ≠ itemId)
  ∧ remove_id itemId hist `sublist_of` hist
  ∧ ((∀ x, x ∈ hist → id x ≠ itemId) → remove_id itemId hist = hist)
  ∧ out = (λ c, (c, history (remove_id itemId hist))) <$> connectionsFor st U
  ∧ handle st' (delete_item s itemId) = (st', out)
  ∧ (∀ V, V ≠ U → clipboardHistory st' !! V = clipboardHistory st !! V).
Proof.
  intros Hs Hu Ht hist st' out. subst st' out.
  rewrite (handle_delete_item st s socket U itemId Hs Hu Ht).
  cbn [fst snd clipboardHistory]. fold hist. split_and!; try done.
  - apply lookup_insert_eq.
  - intros x. unfold remove_id. rewrite list_elem_of_filter. tauto.
  - unfold remove_id. apply sublist_filter.
  - apply remove_id_absent.
  - match goal with
    | |- handle ?st1 _ = _ =>
        rewrite (handle_delete_item st1 s socket U itemId Hs Hu Ht)
    end.
    unfold connectionsFor. cbn [clipboardHistory userSockets sockets].
    rewrite lookup_insert_eq. simpl. fold hist.
    by rewrite remove_id_twice, insert_insert_eq.
  - intros V Hne. by apply lookup_insert_ne.
Qed.

(** X5.  Pushing an item whose content and type are not in a history
    within the bound puts it in front of the first [MAX_HISTORY - 1]
    entries: below the bound nothing is lost, at the bound exactly the
    oldest entry is dropped. *)
Theorem push_new_content (hist : list ClipboardItem) (item : ClipboardItem) :
  length hist ≤ MAX_HISTORY →
  (∀ x, x ∈ hist → ¬ (content x = content item ∧ type x = type item)) →
  push hist item = item :: take (MAX_HISTORY - 1) hist
  ∧ (length hist < MAX_HISTORY → push hist item = item :: hist)
  ∧ (length hist = MAX_HISTORY →
     push hist item = item :: removelast hist
     ∧ length (push hist item) = MAX_HISTORY).
Proof.
  intros Hlen Hnew.
  assert (findIndex (same_content item) hist = None) as Hf.
  { apply findIndex_None. intros x Hx.
    destruct (same_content item x) eqn:Hsame; [|done].
    apply same_content_key in Hsame. injection Hsame as Hc Ht.
    by destruct (Hnew x Hx). }
  rewrite (push_no_match _ _ Hf).
  assert (length hist = MAX_HISTORY →
          pop (item :: hist) = item :: removelast hist) as Hpop.
  { intros Hfull. unfold pop. destruct hist as [|y hist']; [done|]. done. }
  split_and!.
  - case_decide as Hover.
    + assert (length hist = MAX_HISTORY) as Hfull by lia.
      rewrite (Hpop Hfull), removelast_firstn_len, Hfull. done.
    + rewrite take_ge; [done|]. lia.
  - intros Hlt. rewrite decide_False by lia. done.
  - intros Hfull. rewrite decide_True by lia. rewrite (Hpop Hfull).
    split; [done|]. simpl. rewrite removelast_firstn_len, Hfull.
    change firstn with (@take ClipboardItem). rewrite length_take.
    unfold MAX_HISTORY in *. lia.
Qed.

(** X6.  Sending the same content and type twice in a row gives the
    history of sending it once, with the second item in the place of the
    first: nothing else moves and the length stays. *)
Theorem push_same_content_twice (hist : list ClipboardItem)
  (item1 item2 : ClipboardItem) :
  length hist ≤ MAX_HISTORY →
  content item1 = content item2 → type item1 = type item2 →
  push (push hist item1) item2 = item2 :: tail (push hist item1)
  ∧ length (push (push hist item1) item2) = length (push hist item1).
Proof.
  intros Hlen Hc Ht.
  pose proof (length_push hist item1 Hlen) as Hlen1.
  pose proof (push_head hist item1) as Hhead.
  destruct (push hist item1) as [|x rest]; [done|].
  simpl in Hhead. injection Hhead as ->. simpl in *.
  assert (same_content item2 item1 = true) as Hsame.
  { apply same_content_key. unfold key. by rewrite Hc, Ht. }
  unfold push. simpl. rewrite Hsame. simpl. unfold unshift.
  rewrite decide_False by (simpl; lia). done.
Qed.

(** X7.  Whatever the event, a packet goes either to the socket the event
    came from or to a member of the set of the user that socket carries;
    an event that is no socket event sends nothing. *)
Theorem packets_stay_with_the_user (st : Hub) (ev : Event) (c : string)
  (m : Message) :
  (c, m) ∈ (handle st ev).2 →
  ∃ s socket,
    socket_of ev = Some s ∧ sockets st !! s = Some socket
    ∧ (c = s ∨ ∃ U, userId socket = Some U ∧ c ∈ connectionsFor st U).
Proof.
  destruct ev as [s|s token|s d now date|s|s itemId|s|user]; handler_cases;
    intros Hin;
    try (by apply elem_of_nil in Hin);
    try (apply list_elem_of_singleton in Hin; injection Hin as -> _;
         eexists _, _; split_and!; [done..|by left]);
    eexists _, _; (split_and!; [done..|]); right; eexists; (split; [done|]).
  - apply elem_of_app in Hin as [Hin|Hin];
      by apply broadcast_message in Hin as [_ Hin].
  - by apply broadcast_message in Hin as [_ Hin].
  - by apply broadcast_message in Hin as [_ Hin].
Qed.

(** X8.  In a reachable state, every [history] packet an event sends
    carries the history stored for some user after that event, so it has
    at most [MAX_HISTORY] entries and no two of them agree on content and
    type. *)
Theorem emitted_histories_are_stored_and_bounded (st : Hub) (ev : Event)
  (c : string) (h : list ClipboardItem) :
  reachable st →
  (c, history h) ∈ (handle st ev).2 →
  (∃ user, h = default [] (clipboardHistory (handle st ev).1 !! user))
  ∧ length h ≤ MAX_HISTORY
  ∧ NoDup (key <$> h).
Proof.
  intros Hreach Hin.
  assert (∃ user, h = default [] (clipboardHistory (handle st ev).1 !! user))
    as [user Hh].
  { revert Hin.
    destruct ev as [s|s token|s d now date|s|s itemId|s|u]; handler_cases;
      intros Hin;
      try (by apply elem_of_nil in Hin);
      try (apply list_elem_of_singleton in Hin; by injection Hin as -> ->);
      try (apply list_elem_of_singleton in Hin; discriminate Hin).
    - apply list_elem_of_singleton in Hin. injection Hin as -> ->. by eexists.
    - apply elem_of_app in Hin as [Hin|Hin];
        apply broadcast_message in Hin as [Hm _]; [discriminate Hm|].
      injection Hm as ->. eexists. by rewrite lookup_insert_eq.
    - apply broadcast_message in Hin as [Hm _]. injection Hm as ->.
      eexists. by rewrite lookup_insert_eq.
    - apply broadcast_message in Hin as [Hm _]. injection Hm as ->.
      eexists. by rewrite lookup_insert_eq. }
  split; [by exists user|].
  pose proof (handle_history_ok st ev (reachable_history_ok st Hreach)) as Hok.
  rewrite Hh.
  destruct (clipboardHistory (handle st ev).1 !! user) as [hist|] eqn:Hl; simpl.
  - by apply (Hok user).
  - split; [unfold MAX_HISTORY; lia|constructor].
Qed.

(** X9.  In every reachable state the registry holds no empty set and no
    set lists a socket twice, and every live socket that carries a user
    is a member of that user's set. *)
Theorem registry_stays_well_formed (st : Hub) :
  reachable st →
  (∀ user members,
     userSockets st !! user = Some members → members ≠ [] ∧ NoDup members)
  ∧ (∀ s socket user,
       sockets st !! s = Some socket → userId socket = Some user →
       s ∈ connectionsFor st user).
Proof.
  intros Hreach. destruct (reachable_registry_ok st Hreach) as [Hsets Hlive].
  split; [|done]. intros user members Hm.
  by destruct (Hsets user members Hm).
Qed.

(** X10.  Histories outlive connections: when a socket disconnects and a
    new connection authenticates for user U, the one packet sent is U's
    history as it was stored before, and the history store is the same. *)
Theorem history_survives_reconnect (st : Hub) (s s2 : string)
  (socket : Socket) (token U : string) :
  sockets st !! s = Some socket →
  jwt_verify token = Some U →
  (s2 = s ∨ sockets st !! s2 = None) →
  (run st [disconnect s; connection s2; authenticate s2 token]).2
  = [(s2, history (default [] (clipboardHistory st !! U)))]
  ∧ clipboardHistory
      (run st [disconnect s; connection s2; authenticate s2 token]).1
    = clipboardHistory st.
Proof.
  intros Hs Hv Hs2.
  assert (delete s (sockets st) !! s2 = None) as Hfree.
  { destruct Hs2 as [->|Hnone]; [apply lookup_delete_eq|].
    rewrite lookup_delete. by case_decide. }
  simpl. unfold on_socket. rewrite Hs. simpl.
  unfold on_connection. simpl. rewrite Hfree. simpl.
  rewrite lookup_insert_eq. unfold on_authenticate. rewrite Hv. done.
Qed.

(** X26.  A broadcast addresses exactly the members of the user's set
    other than the excluded socket, each with the same message; with no
    exclusion, or an excluded id that is no member, that is every member.
    A user without a set gets nothing, and when the set lists no member
    twice no packet is sent twice. *)
Theorem broadcast_addresses_each_member_once (st : Hub) (user : string)
  (m : Message) (ex : option string) :
  (∀ c m', (c, m') ∈ broadcastToUserDevices st user m ex
           ↔ m' = m ∧ c ∈ connectionsFor st user ∧ Some c ≠ ex)
  ∧ (userSockets st !! user = None → broadcastToUserDevices st user m ex = [])
  ∧ ((∀ s, ex = Some s → s ∉ connectionsFor st user) →
     broadcastToUserDevices st user m ex
     = (λ c, (c, m)) <$> connectionsFor st user)
  ∧ (NoDup (connectionsFor st user) →
     NoDup (broadcastToUserDevices st user m ex)).
Proof.
  assert (∀ l : list string, NoDup l → NoDup ((λ c, (c, m)) <$> l)) as Hinj.
  { intros l Hl. apply NoDup_fmap_2; [|done]. by intros c1 c2 [= ->]. }
  split_and!.
  - intros c m'. destruct ex as [s|].
    + rewrite broadcast_except, elem_of_addressed, Set_delete_elem.
      split; [intros (-> & Hne & Hin)|intros (-> & Hin & Hne)];
        split_and!; try done; congruence.
    + rewrite broadcast_all, elem_of_addressed.
      split; [intros [-> Hin]|intros (-> & Hin & _)]; done.
  - intros Hnone. unfold broadcastToUserDevices. by rewrite Hnone.
  - intros Hex. destruct ex as [s|]; [|apply broadcast_all].
    rewrite broadcast_except. f_equal. unfold Set_delete.
    specialize (Hex s eq_refl).
    induction (connectionsFor st user) as [|c l IH]; [done|].
    rewrite filter_cons.
    rewrite decide_True by (intros ->; apply Hex; by left).
    rewrite IH; [done|]. intros Hin. apply Hex. by right.
  - intros Hnd. destruct ex as [s|].
    + rewrite broadcast_except. by apply Hinj, Set_delete_NoDup.
    + rewrite broadcast_all. by apply Hinj.
Qed.

(** X27.  In a history whose ids are pairwise distinct, deleting the id
    of an entry removes that entry and no other: the result is the
    history without the entry at that index, one entry shorter. *)
Theorem delete_removes_exactly_one_when_ids_distinct
  (hist : list ClipboardItem) (i : nat) (x : ClipboardItem) :
  NoDup (id <$> hist) →
  hist !! i = Some x →
  remove_id (id x) hist = delete i hist
  ∧ length (remove_id (id x) hist) = length hist - 1.
Proof.
  intros Hnd Hi.
  assert (remove_id (id x) hist = delete i hist) as Heq.
  { revert i Hi. induction hist as [|y hist IH]; intros i Hi; [done|].
    rewrite fmap_cons in Hnd. apply NoDup_cons in Hnd as [Hy Hnd].
    unfold remove_id in *. rewrite filter_cons.
    destruct i as [|i]; simpl in Hi.
    - injection Hi as ->. rewrite decide_False by (intros H; by apply H).
      simpl. apply remove_id_absent. intros z Hz Hid. apply Hy.
      rewrite <- Hid. by apply list_elem_of_fmap_2.
    - rewrite decide_True.
      + simpl. f_equal. by apply IH.
      + intros Hid. apply Hy. rewrite Hid. apply list_elem_of_fmap_2.
        apply list_elem_of_lookup. by exists i. }
  split; [done|]. rewrite Heq. apply length_delete. by eexists.
Qed.

(** ** The desktop client *)

Lemma String_length_app (s1 s2 : string) :
  String.length (s1 +:+ s2) = String.length s1 + String.length s2.
Proof. induction s1 as [|a s1 IH]; simpl; [done|]. by rewrite IH. Qed.

Lemma String_length_substring_0 (n : nat) (s : string) :
  String.length (String.substring 0 n s) = n `min` String.length s.
Proof.
  revert s. induction n as [|n IH]; intros [|a s]; simpl; try done.
  by rewrite IH.
Qed.

Lemma String_prefix_substring_0 (n : nat) (s : string) :
  String.prefix (String.substring 0 n s) s = true.
Proof.
  revert s. induction n as [|n IH]; intros [|a s]; simpl; try done.
  destruct (Ascii.ascii_dec a a); [apply IH|done].
Qed.

(** X11.  The text shown for an entry is the content itself when it has
    at most [limit] characters; otherwise it is the first [limit]
    characters of the content followed by three dots.  It is never longer
    than [limit + 3]. *)
Theorem displayContent_is_bounded (limit : nat) (text : string) :
  String.length (displayContent limit text) ≤ limit + 3
  ∧ (String.length text ≤ limit → displayContent limit text = text)
  ∧ (limit < String.length text →
     String.length (displayContent limit text) = limit + 3
     ∧ ∃ shown,
         displayContent limit text = shown +:+ "..."
         ∧ String.length shown = limit
         ∧ String.prefix shown text = true).
Proof.
  unfold displayContent. split_and!.
  - case_decide; [|lia].
    rewrite String_length_app, String_length_substring_0. simpl. lia.
  - intros Hshort. by rewrite decide_False by lia.
  - intros Hlong. rewrite decide_True by done. split.
    + rewrite String_length_app, String_length_substring_0. simpl. lia.
    + exists (String.substring 0 limit text). split_and!; [done| |].
      * rewrite String_length_substring_0. lia.
      * apply String_prefix_substring_0.
Qed.

Lemma truthy_nonempty (s : string) : truthy s = true ↔ s ≠ "".
Proof.
  unfold truthy. rewrite negb_true_iff. apply String.eqb_neq.
Qed.

(** One run of the clipboard check, spelled out. *)
Lemma clipboardCheck_spec (c : Client) (hostname : string) :
  let changed :=
    isAuthenticated c && truthy (clipboard c)
    && negb (String.eqb (clipboard c) (lastClipboardContent c)) in
  clipboardCheck c hostname
  = ({| isAuthenticated := isAuthenticated c;
        lastClipboardContent :=
          if changed then clipboard c else lastClipboardContent c;
        clipboard := clipboard c;
        connected := connected c |},
     if changed && connected c then
       [emit_clipboard_update
          {| data.content := clipboard c; data.type := Some "text";
             data.deviceId := hostname; data.deviceName := hostname |};
        send_clipboard_updated (clipboard c)]
     else []).
Proof.
  unfold clipboardCheck. destruct c as [auth last clip conn]. simpl.
  destruct auth; simpl; [|done].
  destruct (truthy clip); simpl; [|done].
  destruct (String.eqb clip last); simpl; [done|].
  by destruct conn.
Qed.

(** After a run, a second run sends nothing while the clipboard keeps its
    text, connected or not. *)
Lemma clipboardCheck_again (c : Client) (hostname : string) (b : bool) :
  (clipboardCheck (set_connected (clipboardCheck c hostname).1 b) hostname).2
  = [].
Proof.
  rewrite (clipboardCheck_spec c). cbv zeta. simpl.
  rewrite clipboardCheck_spec. cbv zeta. simpl.
  destruct (isAuthenticated c); simpl; [|done].
  destruct (truthy (clipboard c)); simpl; [|done].
  destruct (String.eqb (clipboard c) (lastClipboardContent c)) eqn:Heq; simpl.
  - by rewrite Heq.
  - by rewrite String.eqb_refl.
Qed.

(** X12.  One run of the clipboard check, when the client is logged in,
    the socket is connected and the clipboard holds a non-empty text that
    differs from the last one seen, sends exactly two things: a
    [clipboard_update] with that text, type ["text"] and the host name as
    device id and name, then the notice for the renderer.  In every other
    case it sends nothing.  After the run nothing is sent again while the
    clipboard keeps its text, whatever happens to the connection in
    between. *)
Theorem clipboardCheck_sends_each_change_once (c : Client) (hostname : string) :
  (isAuthenticated c = true ∧ connected c = true
   ∧ clipboard c ≠ "" ∧ clipboard c ≠ lastClipboardContent c →
   (clipboardCheck c hostname).2
   = [emit_clipboard_update
        {| data.content := clipboard c; data.type := Some "text";
           data.deviceId := hostname; data.deviceName := hostname |};
      send_clipboard_updated (clipboard c)]
   ∧ lastClipboardContent (clipboardCheck c hostname).1 = clipboard c)
  ∧ (¬ (isAuthenticated c = true ∧ connected c = true
        ∧ clipboard c ≠ "" ∧ clipboard c ≠ lastClipboardContent c) →
     (clipboardCheck c hostname).2 = [])
  ∧ ((clipboardCheck c hostname).2 ≠ []
     ↔ isAuthenticated c = true ∧ connected c = true
       ∧ clipboard c ≠ "" ∧ clipboard c ≠ lastClipboardContent c)
  ∧ (∀ d, emit_clipboard_update d ∈ (clipboardCheck c hostname).2 →
          data.content d = clipboard c ∧ data.type d = Some "text"
          ∧ data.deviceId d = hostname ∧ data.deviceName d = hostname)
  ∧ (∀ b, (clipboardCheck (set_connected (clipboardCheck c hostname).1 b)
             hostname).2 = []).
Proof.
  split_and!; [| | | |apply clipboardCheck_again].
  - intros (Hauth & Hconn & Hfull & Hnew).
    apply truthy_nonempty in Hfull. apply String.eqb_neq in Hnew.
    rewrite clipboardCheck_spec. cbv zeta. simpl.
    by rewrite Hauth, Hconn, Hfull, Hnew.
  - rewrite clipboardCheck_spec. cbv zeta. simpl.
    rewrite <- truthy_nonempty, <- String.eqb_neq.
    destruct (isAuthenticated c), (truthy (clipboard c)),
      (String.eqb (clipboard c) (lastClipboardContent c)), (connected c);
      simpl; try done.
    intros Hnot. by destruct Hnot.
  - rewrite clipboardCheck_spec. cbv zeta. simpl.
    rewrite <- truthy_nonempty, <- String.eqb_neq.
    destruct (isAuthenticated c), (truthy (clipboard c)),
      (String.eqb (clipboard c) (lastClipboardContent c)), (connected c);
      simpl; split; try done; intros (? & ? & ? & ?); done.
  - intros d. rewrite clipboardCheck_spec. cbv zeta. simpl.
    case_match; [|by intros ?%elem_of_nil].
    intros [Hd|Hd]%elem_of_cons.
    + by injection Hd as ->.
    + apply list_elem_of_singleton in Hd. discriminate Hd.
Qed.

(** X13.  Text the application itself puts on the clipboard, whether it
    came in as [clipboard_sync] or was picked from the history, is on the
    clipboard afterwards and is not sent to the server by the next
    clipboard check. *)
Theorem own_writes_are_not_sent_back (c : Client) (item : ClipboardItem)
  (text hostname : string) :
  clipboard (on_clipboard_sync c item).1 = content item
  ∧ clipboardCheck (on_clipboard_sync c item).1 hostname
    = ((on_clipboard_sync c item).1, [])
  ∧ clipboard (copy_to_clipboard c text) = text
  ∧ clipboardCheck (copy_to_clipboard c text) hostname
    = (copy_to_clipboard c text, []).
Proof.
  rewrite !clipboardCheck_spec. cbv zeta. simpl.
  rewrite !String.eqb_refl, !andb_false_r. done.
Qed.

(** X14.  A text copied while the socket is not connected is marked as
    seen by the clipboard check without being sent, so it is not sent
    after the socket connects either, as long as the clipboard keeps that
    text. *)
Theorem offline_copy_is_never_sent (c : Client) (text hostname : string) :
  connected c = false →
  let c1 := (clipboardCheck (user_copies c text) hostname).1 in
  (clipboardCheck (user_copies c text) hostname).2 = []
  ∧ clipboard (set_connected c1 true) = text
  ∧ (clipboardCheck (set_connected c1 true) hostname).2 = [].
Proof.
  intros Hoff c1. subst c1. split_and!.
  - rewrite clipboardCheck_spec. cbv zeta. simpl.
    by rewrite Hoff, andb_false_r.
  - by rewrite clipboardCheck_spec.
  - apply clipboardCheck_again.
Qed.

(** ** Client and server together *)

(** X15.  Two devices A and B of one user, both authenticated, in a
    reachable state.  When the clipboard check on A finds a new text, it
    sends one [clipboard_update]; the server answers with a
    [clipboard_sync] for B carrying that text with type ["text"]; B puts
    the text on its clipboard, and the next clipboard check on B sends
    nothing, so the update does not travel back.  A does not send it a
    second time either. *)
Theorem sync_reaches_the_other_device_once (st : Hub) (A B U : string)
  (sockA sockB : Socket) (cA cB : Client) (hostA hostB : string)
  (now date : Z) :
  reachable st →
  sockets st !! A = Some sockA → userId sockA = Some U →
  sockets st !! B = Some sockB → userId sockB = Some U →
  truthy U = true → A ≠ B →
  isAuthenticated cA = true → connected cA = true →
  clipboard cA ≠ "" → clipboard cA ≠ lastClipboardContent cA →
  ∃ d item,
    (clipboardCheck cA hostA).2
    = [emit_clipboard_update d; send_clipboard_updated (clipboard cA)]
    ∧ item = make_item toISOString d now date
    ∧ content item = clipboard cA ∧ type item = "text"
    ∧ deviceName item = hostA
    ∧ (B, clipboard_sync item) ∈ (handle st (clipboard_update A d now date)).2
    ∧ clipboard (on_clipboard_sync cB item).1 = clipboard cA
    ∧ (clipboardCheck (on_clipboard_sync cB item).1 hostB).2 = []
    ∧ (clipboardCheck (clipboardCheck cA hostA).1 hostA).2 = [].
Proof.
  intros Hreach HA HuA HB HuB Ht Hne Hauth Hconn Hfull Hnew.
  eexists _, _. split_and!.
  - rewrite clipboardCheck_spec. cbv zeta. simpl.
    apply truthy_nonempty in Hfull. apply String.eqb_neq in Hnew.
    rewrite Hauth, Hconn, Hfull, Hnew. simpl. reflexivity.
  - reflexivity.
  - done.
  - done.
  - done.
  - rewrite (handle_clipboard_update st A sockA U _ now date HA HuA Ht).
    simpl. apply elem_of_app. left. apply elem_of_addressed. split; [done|].
    apply Set_delete_elem. split; [done|].
    destruct (reachable_registry_ok st Hreach) as [_ Hlive].
    by apply (Hlive B sockB U).
  - done.
  - rewrite clipboardCheck_spec. cbv zeta. simpl.
    by rewrite String.eqb_refl, !andb_false_r.
  - pose proof (clipboardCheck_again cA hostA (connected cA)) as Hagain.
    destruct (clipboardCheck cA hostA) as [c1 out1] eqn:Hc.
    rewrite clipboardCheck_spec in Hc. cbv zeta in Hc.
    injection Hc as <- _. simpl in *. exact Hagain.
Qed.

(** ** The REST endpoints *)

Section EndpointProperties.

Variable bcrypt_compare : string → string → bool.
Variable jwt_sign : string → string → Z → string.

Local Abbreviation resume := (register_resume jwt_sign).
Local Abbreviation login := (post_login bcrypt_compare jwt_sign).
Local Abbreviation serve_one := (serve bcrypt_compare jwt_sign).
Local Abbreviation serve_seq := (serve_all bcrypt_compare jwt_sign).

Lemma find_device_None (deviceName : string) (devices : list Device.t) :
  find_device deviceName devices = None ↔ deviceName ∉ Device.name <$> devices.
Proof.
  unfold find_device. induction devices as [|d devices IH]; simpl.
  - split; [|done]. intros _ H. by apply elem_of_nil in H.
  - destruct (String.eqb (Device.name d) deviceName) eqn:Hd.
    + apply String.eqb_eq in Hd. split; [done|]. intros H. destruct H.
      rewrite <- Hd. by left.
    + apply String.eqb_neq in Hd. rewrite IH, not_elem_of_cons.
      split; [intros Hnot; split; [congruence|done]|by intros [_ Hnot]].
Qed.

Lemma add_device_spec (deviceName deviceId : string) (devices : list Device.t) :
  devices `prefix_of` add_device deviceName deviceId devices
  ∧ deviceName ∈ Device.name <$> add_device deviceName deviceId devices
  ∧ (NoDup (Device.name <$> devices) →
     NoDup (Device.name <$> add_device deviceName deviceId devices))
  ∧ (devices ≠ [] → add_device deviceName deviceId devices ≠ []).
Proof.
  unfold add_device.
  destruct (find_device deviceName devices) as [d|] eqn:Hf.
  - split_and!; try done.
    destruct (decide (deviceName ∈ Device.name <$> devices)) as [|Hnot];
      [done|]. apply find_device_None in Hnot. congruence.
  - apply find_device_None in Hf. split_and!.
    + by apply prefix_app_r.
    + rewrite fmap_app. apply elem_of_app. right. by left.
    + intros Hnd. rewrite fmap_app. apply NoDup_app. split_and!; [done| |].
      * intros x Hx ->%list_elem_of_singleton. done.
      * apply NoDup_singleton.
    + intros _. by destruct devices.
Qed.


(** What one request does to the accounts and to the waiting
    registrations: nothing; or a registration starts to wait for an email
    without account; or a waiting registration stores its account,
    whatever the map holds for that email; or a login adds a device. *)
Lemma serve_accounts (st : Server) (req : Request) :
  let st' := (serve_one st req).1.1 in
  (users st' = users st ∧ registering st' = registering st)
  ∨ (∃ email deviceName,
       users st !! email = None
       ∧ users st' = users st
       ∧ registering st' = registering st ++ [(email, deviceName)])
  ∨ (∃ k email deviceName user,
       registering st !! k = Some (email, deviceName)
       ∧ users st' = <[email := user]> (users st)
       ∧ registering st' = delete k (registering st)
       ∧ User.email user = email
       ∧ ∃ device, User.devices user = [device])
  ∨ (∃ email user deviceName deviceId,
       users st !! email = Some user
       ∧ registering st' = registering st
       ∧ users st'
         = <[email := {| User.id := User.id user;
                         User.email := User.email user;
                         User.password := User.password user;
                         User.devices :=
                           add_device deviceName deviceId (User.devices user) |}]>
             (users st)).
Proof.
  destruct req as [ev|email deviceName|k hashed now now' iat
                  |email password deviceName now iat]; simpl.
  - destruct (handle (hub st) ev). by left.
  - unfold post_register. case_decide as Hex; simpl; [by left|].
    apply eq_None_not_Some in Hex. right; left. by eexists _, _.
  - unfold register_resume.
    destruct (registering st !! k) as [[email deviceName]|] eqn:Hk;
      simpl; [|by left].
    right; right; left. eexists _, _, _, _. split_and!; [done..|].
    by eexists.
  - unfold post_login. destruct (users st !! email) as [user|] eqn:Hu;
      [|by left].
    destruct (bcrypt_compare password (User.password user)); [|by left].
    simpl. right; right; right. by eexists _, _, _, _.
Qed.

Lemma serve_all_ind (P : Server → Prop) :
  (∀ st req, P st → P (serve_one st req).1.1) →
  ∀ reqs st, P st → P (serve_seq st reqs).
Proof.
  intros Hstep reqs. induction reqs as [|req reqs IH]; intros st Hst; [done|].
  simpl. apply IH, Hstep, Hst.
Qed.

Lemma serve_history_ok (st : Server) (req : Request) :
  history_ok (hub st) → history_ok (hub (serve_one st req).1.1).
Proof.
  intros Hok.
  destruct req as [ev|email deviceName|k hashed now now' iat
                  |email password deviceName now iat]; simpl.
  - pose proof (handle_history_ok (hub st) ev Hok) as H.
    by destruct (handle (hub st) ev).
  - unfold post_register. by case_decide.
  - unfold register_resume.
    destruct (registering st !! k) as [[email deviceName]|]; simpl; [|done].
    apply (handle_history_ok (hub st) (api_register (Date_now_toString now)) Hok).
  - unfold post_login. destruct (users st !! email) as [user|]; [|done].
    by destruct (bcrypt_compare password (User.password user)).
Qed.

(** A registration that resumes, in whatever state it finds: it stores
    its account, takes itself off the waiting list, empties the history
    under the new user id and answers the token and the id. *)
Lemma register_resume_waiting (st : Server) (k : nat)
  (email deviceName hashed : string) (now now' iat : Z) :
  registering st !! k = Some (email, deviceName) →
  let userId := Date_now_toString now in
  resume st k hashed now now' iat
  = ({| users :=
          <[email := {| User.id := userId;
                        User.email := email;
                        User.password := hashed;
                        User.devices :=
                          [{| Device.name := deviceName;
                              Device.id := Date_now_toString now' |}] |}]>
            (users st);
        registering := delete k (registering st);
        hub := {| clipboardHistory :=
                    <[userId := []]> (clipboardHistory (hub st));
                  userSockets := userSockets (hub st);
                  sockets := sockets (hub st) |} |},
     Some (json_registered (jwt_sign userId email iat) userId)).
Proof. intros Hk. unfold register_resume. by rewrite Hk. Qed.

(** A registration for an email without account starts to wait, last in
    the list, and answers nothing yet. *)
Lemma post_register_free (st : Server) (email deviceName : string) :
  users st !! email = None →
  post_register st email deviceName
  = ({| users := users st;
        registering := registering st ++ [(email, deviceName)];
        hub := hub st |}, None)
  ∧ (registering st ++ [(email, deviceName)]) !! length (registering st)
    = Some (email, deviceName).
Proof.
  intros Hnew. unfold post_register.
  rewrite decide_False by (rewrite Hnew; by intros [? ?]).
  split; [done|]. rewrite lookup_app_r by done.
  by rewrite Nat.sub_diag.
Qed.

(** X16.  An email that has an account stays taken: whatever events and
    requests follow, overlapping registrations included, a new
    registration request for it is answered 400 ["User already exists"]
    at once, is not left waiting and does not change the server. *)
Theorem registered_email_stays_taken (st : Server) (reqs : list Request)
  (email : string) (user : User.t) (deviceName : string) :
  users st !! email = Some user →
  post_register (serve_seq st reqs) email deviceName
  = (serve_seq st reqs, Some (json_error 400 "User already exists")).
Proof.
  intros Hu.
  assert (is_Some (users (serve_seq st reqs) !! email)) as Htaken.
  { apply (serve_all_ind (λ st', is_Some (users st' !! email))); [|by eexists].
    clear. intros st req Htaken.
    destruct (serve_accounts st req)
      as [[-> _]|[(e & dn & _ & -> & _)|[(k & e & dn & u & _ & -> & _)
                                        |(e & u & dn & di & _ & _ & ->)]]];
      try done; rewrite lookup_insert; by case_decide. }
  unfold post_register. by rewrite decide_True.
Qed.

(** X17.  A login for an email without account and a login with a
    password that does not match get the same answer, 401
    ["Invalid credentials"], and neither changes the server; no device is
    recorded for a failed login. *)
Theorem login_failures_look_alike (st : Server)
  (email password deviceName : string) (now iat : Z) :
  (users st !! email = None
   ∨ ∃ user, users st !! email = Some user
             ∧ bcrypt_compare password (User.password user) = false) →
  login st email password deviceName now iat
  = (st, json_error 401 "Invalid credentials").
Proof.
  unfold post_login. intros [->|(user & -> & ->)]; done.
Qed.

(** X18.  A registration request for an email without account answers
    nothing at first and waits for its hash.  When the hash arrives, in
    whatever state the server is by then, it answers the token and the
    new user id, stores the empty history under that id and touches no
    other history; a login that follows with a password the stored hash
    accepts answers the same user id and an empty history, and a password
    the hash rejects gets 401. *)
Theorem register_then_login (st : Server)
  (email deviceName hashed password deviceName2 : string)
  (now now' iat now2 iat2 : Z) :
  users st !! email = None →
  bcrypt_compare password hashed = true →
  let userId := Date_now_toString now in
  let st0 := (post_register st email deviceName).1 in
  (post_register st email deviceName).2 = None
  ∧ users st0 = users st ∧ hub st0 = hub st
  ∧ registering st0 !! length (registering st) = Some (email, deviceName)
  ∧ ∀ st' k,
      registering st' !! k = Some (email, deviceName) →
      let st1 := (resume st' k hashed now now' iat).1 in
      (resume st' k hashed now now' iat).2
      = Some (json_registered (jwt_sign userId email iat) userId)
      ∧ clipboardHistory (hub st1) !! userId = Some []
      ∧ (∀ V, V ≠ userId →
              clipboardHistory (hub st1) !! V = clipboardHistory (hub st') !! V)
      ∧ (login st1 email password deviceName2 now2 iat2).2
        = json_logged_in (jwt_sign userId email iat2) userId []
      ∧ (∀ wrong, bcrypt_compare wrong hashed = false →
                  (login st1 email wrong deviceName2 now2 iat2).2
                  = json_error 401 "Invalid credentials").
Proof.
  intros Hnew Hpw userId st0. subst st0.
  destruct (post_register_free st email deviceName Hnew) as [-> Hlast].
  cbn [fst snd users hub registering].
  split; [done|]. split; [done|]. split; [done|]. split; [exact Hlast|].
  intros st' k Hk.
  rewrite (register_resume_waiting st' k email deviceName hashed now now' iat Hk).
  simpl. split_and!; try done.
  - apply lookup_insert_eq.
  - intros V Hne. by apply lookup_insert_ne.
  - unfold post_login. simpl. rewrite lookup_insert_eq. simpl.
    rewrite Hpw. simpl. by rewrite lookup_insert_eq.
  - intros wrong Hwrong. unfold post_login. simpl.
    rewrite lookup_insert_eq. simpl. by rewrite Hwrong.
Qed.

(** X19.  When [jwt.verify] accepts the tokens [jwt.sign] issues, the
    token a registration answers authenticates a live socket for the new
    user id: the socket gets one packet, the empty history, and becomes a
    member of that user's set. *)
Theorem registered_token_authenticates (st : Server)
  (email deviceName hashed : string) (now now' iat : Z)
  (s : string) (socket : Socket) :
  (∀ userId email iat, jwt_verify (jwt_sign userId email iat) = Some userId) →
  users st !! email = None →
  sockets (hub st) !! s = Some socket →
  let st0 := (post_register st email deviceName).1 in
  let st1 := (resume st0 (length (registering st)) hashed now now' iat).1 in
  ∃ token userId,
    (resume st0 (length (registering st)) hashed now now' iat).2
    = Some (json_registered token userId)
    ∧ (handle (hub st1) (authenticate s token)).2 = [(s, history [])]
    ∧ s ∈ connectionsFor (handle (hub st1) (authenticate s token)).1 userId.
Proof.
  intros Hjwt Hnew Hs st0 st1. subst st1 st0.
  destruct (post_register_free st email deviceName Hnew) as [-> Hlast].
  cbn [fst snd].
  match goal with
  | |- context [register_resume jwt_sign ?st0 _ _ _ _ _] =>
      rewrite (register_resume_waiting st0 _ email deviceName hashed
                 now now' iat Hlast)
  end.
  simpl. eexists _, _. split; [done|].
  unfold on_socket. simpl. rewrite Hs. unfold on_authenticate. rewrite Hjwt.
  unfold connectionsFor. simpl. rewrite lookup_insert_eq. simpl.
  split; [done|].
  rewrite lookup_register_socket, decide_True by done. simpl.
  apply Set_add_elem. by left.
Qed.

(** X20.  The history a successful login answers is the history the
    socket gets when it then authenticates with the token of that login. *)
Theorem login_history_matches_snapshot (st : Server)
  (email password deviceName : string) (now iat : Z)
  (token userId : string) (hist : list ClipboardItem)
  (s : string) (socket : Socket) :
  (∀ userId email iat, jwt_verify (jwt_sign userId email iat) = Some userId) →
  (login st email password deviceName now iat).2
  = json_logged_in token userId hist →
  sockets (hub st) !! s = Some socket →
  (handle (hub (login st email password deviceName now iat).1)
     (authenticate s token)).2
  = [(s, history hist)].
Proof.
  intros Hjwt Hlogin Hs. revert Hlogin. unfold post_login.
  destruct (users st !! email) as [user|]; [|done].
  destruct (bcrypt_compare password (User.password user)); [|done].
  simpl. intros [= <- <- <-].
  unfold on_socket. rewrite Hs. unfold on_authenticate. by rewrite Hjwt.
Qed.


(** X22.  Without an overlapping registration, accounts are permanent:
    if an email has an account and no registration for that email is
    waiting for its hash, then whatever events and requests follow, the
    email keeps its account with the same user id, email and password
    hash, its device list only grows at the end, and no registration for
    it comes to wait. *)
Theorem accounts_are_permanent (st : Server) (reqs : list Request)
  (email : string) (user : User.t) :
  users st !! email = Some user →
  (∀ e deviceName, (e, deviceName) ∈ registering st → e ≠ email) →
  (∃ user',
     users (serve_seq st reqs) !! email = Some user'
     ∧ User.id user' = User.id user
     ∧ User.email user' = User.email user
     ∧ User.password user' = User.password user
     ∧ User.devices user `prefix_of` User.devices user')
  ∧ (∀ e deviceName,
       (e, deviceName) ∈ registering (serve_seq st reqs) → e ≠ email).
Proof.
  intros Hu Hfree.
  apply (serve_all_ind
           (λ st', (∃ user',
                      users st' !! email = Some user'
                      ∧ User.id user' = User.id user
                      ∧ User.email user' = User.email user
                      ∧ User.password user' = User.password user
                      ∧ User.devices user `prefix_of` User.devices user')
                   ∧ (∀ e deviceName,
                        (e, deviceName) ∈ registering st' → e ≠ email)));
    [|split; [by eexists|done]].
  clear st Hu Hfree.
  intros st req [(u1 & Hu1 & Hid & Hem & Hpw & Hpre) Hfree].
  destruct (serve_accounts st req)
    as [[-> ->]|[(e & dn & Hnone & -> & ->)
                |[(k & e & dn & u & Hk & -> & -> & _)
                 |(e & u & dn & di & Hsome & -> & ->)]]].
  - split; [by eexists|done].
  - split; [by eexists|].
    intros e' dn' [Hin|Hin]%elem_of_app; [by eapply Hfree|].
    apply list_elem_of_singleton in Hin. injection Hin as -> ->.
    intros ->. congruence.
  - assert (e ≠ email) as Hne.
    { apply (Hfree e dn). apply list_elem_of_lookup. by exists k. }
    split.
    + exists u1. by rewrite lookup_insert_ne.
    + intros e' dn' Hin. apply (Hfree e' dn').
      eapply elem_of_sublist; [exact Hin|apply sublist_delete].
  - split; [|done].
    destruct (decide (e = email)) as [->|Hne].
    + rewrite lookup_insert_eq. eexists. split; [done|]. simpl.
      rewrite Hu1 in Hsome. injection Hsome as <-. split_and!; try done.
      etrans; [exact Hpre|]. apply add_device_spec.
    + exists u1. by rewrite lookup_insert_ne.
Qed.

(** X23.  After any sequence of requests on a fresh server, every account
    is stored under its own email, has at least one device, and no two of
    its devices have the same name. *)
Theorem accounts_stay_well_formed (reqs : list Request) (email : string)
  (user : User.t) :
  users (serve_seq server_init reqs) !! email = Some user →
  User.email user = email
  ∧ User.devices user ≠ []
  ∧ NoDup (Device.name <$> User.devices user).
Proof.
  revert email user. fold (accounts_ok (serve_seq server_init reqs)).
  apply serve_all_ind.
  2:{ intros email user. unfold server_init. simpl. by rewrite lookup_empty. }
  intros st req Hok email user.
  destruct (serve_accounts st req)
    as [[-> _]|[(e & dn & _ & -> & _)
               |[(k & e & dn & u & _ & -> & _ & He & d & Hd)
                |(e & u & dn & di & Hsome & _ & ->)]]].
  - apply Hok.
  - apply Hok.
  - rewrite lookup_insert. case_decide; [|apply Hok]. intros [= <-].
    subst. rewrite Hd. split_and!; try done. simpl. apply NoDup_singleton.
  - rewrite lookup_insert. case_decide; [|apply Hok]. intros [= <-]. subst.
    destruct (Hok _ _ Hsome) as (Hem & Hne & Hnd). simpl.
    destruct (add_device_spec dn di (User.devices u)) as (_ & _ & Hnd' & Hne').
    auto.
Qed.

(** X24.  After any sequence of requests on a fresh server, the history a
    successful login answers has at most [MAX_HISTORY] entries and no two
    of them agree on content and type. *)
Theorem login_history_is_bounded (reqs : list Request)
  (email password deviceName : string) (now iat : Z)
  (token userId : string) (hist : list ClipboardItem) :
  (login (serve_seq server_init reqs) email password deviceName now iat).2
  = json_logged_in token userId hist →
  length hist ≤ MAX_HISTORY ∧ NoDup (key <$> hist).
Proof.
  assert (history_ok (hub (serve_seq server_init reqs))) as Hok.
  { apply (serve_all_ind (λ st, history_ok (hub st))).
    - intros st req. apply serve_history_ok.
    - intros user h. unfold server_init, init. simpl. by rewrite lookup_empty. }
  unfold post_login.
  destruct (users (serve_seq server_init reqs) !! email) as [user|]; [|done].
  destruct (bcrypt_compare password (User.password user)); [|done].
  simpl. intros [= _ _ <-].
  destruct (clipboardHistory (hub (serve_seq server_init reqs)) !! User.id user)
    as [h|] eqn:Hh; simpl.
  - by apply (Hok (User.id user)).
  - split; [unfold MAX_HISTORY; lia|constructor].
Qed.

End EndpointProperties.

End Hub.

(** ** The claims on sample runs *)

Local Abbreviation Handle := (handle sample_verify sample_toISOString).
Local Abbreviation Run := (run sample_verify sample_toISOString init).
Local Abbreviation Item := (make_item sample_toISOString).

(** Two sockets of user u1, both authenticated. *)
Local Abbreviation two_devices :=
  (Run [connection "A"; connection "B";
        authenticate "A" "token-u1"; authenticate "B" "token-u1"]).1.

(** C5.  One socket that authenticates for user u1 and then for user u2
    is a member of the sets of both users, so the registry does not keep
    a socket id in one set at most; after the socket disconnects its id
    is still in the set of u1. *)
Theorem reauthentication_registers_twice :
  let st := (Run [connection "A"; authenticate "A" "token-u1";
                  authenticate "A" "token-u2"]).1 in
  connectionsFor st "u1" = ["A"]
  ∧ connectionsFor st "u2" = ["A"]
  ∧ ¬ one_user_per_socket st
  ∧ connectionsFor (Handle st (disconnect "A")).1 "u1" = ["A"]
  ∧ sockets (Handle st (disconnect "A")).1 !! "A" = None.
Proof.
  intros st.
  assert (connectionsFor st "u1" = ["A"]) as H1 by (vm_compute; reflexivity).
  assert (connectionsFor st "u2" = ["A"]) as H2 by (vm_compute; reflexivity).
  split_and!; [done|done| |vm_compute; reflexivity..].
  intros Hone. specialize (Hone "A" "u1" "u2").
  rewrite H1, H2 in Hone. discriminate Hone; by left.
Qed.

(** C6.  Two updates with different content handled at the same clock
    reading get the same id: the history holds two entries with id
    ["1000"], and [delete_item] with that id removes both. *)
Theorem same_millisecond_ids_collide :
  let st := (Run [connection "A"; authenticate "A" "token-u1";
                  clipboard_update "A" (sample_data "x") 1000 1000;
                  clipboard_update "A" (sample_data "y") 1000 1000]).1 in
  clipboardHistory st !! "u1"
  = Some [Item (sample_data "y") 1000 1000; Item (sample_data "x") 1000 1000]
  ∧ id <$> default [] (clipboardHistory st !! "u1") = ["1000"; "1000"]
  ∧ ¬ ids_distinct st
  ∧ clipboardHistory (Handle st (delete_item "A" "1000")).1 !! "u1" = Some [].
Proof.
  intros st.
  assert (clipboardHistory st !! "u1"
          = Some [Item (sample_data "y") 1000 1000;
                  Item (sample_data "x") 1000 1000]) as Hh
    by (vm_compute; reflexivity).
  split_and!; [done|vm_compute; reflexivity| |vm_compute; reflexivity].
  intros Hids. specialize (Hids "u1" _ Hh).
  apply NoDup_cons in Hids as [Hnotin _]. apply Hnotin. by left.
Qed.

(** C8.  A socket that authenticated for user u1 and then for user u2
    sends a token that does not verify.  It gets [auth_error] and is
    closed, and it leaves the set of u2, but its id stays in the set of
    u1: after the failed [authenticate] the connection is still in the
    registry. *)
Theorem failed_authenticate_leaves_old_registration :
  let st := (Run [connection "A"; authenticate "A" "token-u1";
                  authenticate "A" "token-u2"]).1 in
  (Handle st (authenticate "A" "forged")).2
  = [("A", auth_error "Invalid token")]
  ∧ sockets (Handle st (authenticate "A" "forged")).1 !! "A" = None
  ∧ connectionsFor (Handle st (authenticate "A" "forged")).1 "u2" = []
  ∧ connectionsFor (Handle st (authenticate "A" "forged")).1 "u1" = ["A"]
  ∧ "A" ∈ connectionsFor (Handle st (authenticate "A" "forged")).1 "u1".
Proof.
  intros st.
  assert (connectionsFor (Handle st (authenticate "A" "forged")).1 "u1"
          = ["A"]) as Hstale by (vm_compute; reflexivity).
  split_and!; [vm_compute; reflexivity..|exact Hstale|].
  rewrite Hstale. by left.
Qed.

(** C9.  Sockets A and B authenticate for user u1, then A authenticates
    for user u2 and disconnects.  A is gone, but the set of u1 still
    lists A beside B, so a broadcast for u1 addresses A as well as B.
    With A alone, the set of u1 is left holding the id of the closed
    socket instead of being removed. *)
Theorem disconnect_after_reauthentication_stays_registered :
  let st := (Run [connection "A"; connection "B";
                  authenticate "A" "token-u1"; authenticate "B" "token-u1";
                  authenticate "A" "token-u2"]).1 in
  let st' := (Handle st (disconnect "A")).1 in
  connectionsFor st "u1" = ["A"; "B"]
  ∧ sockets st' !! "A" = None
  ∧ connectionsFor st' "u1" = ["A"; "B"]
  ∧ broadcastToUserDevices st' "u1" (history []) None
    = [("A", history []); ("B", history [])]
  ∧ userSockets
      (Run [connection "A"; authenticate "A" "token-u1";
            authenticate "A" "token-u2"; disconnect "A"]).1 !! "u1"
    = Some ["A"].
Proof. intros st st'. split_and!; vm_compute; reflexivity. Qed.

(** C1 on two devices: A's update goes to B as [clipboard_sync] and to
    both as [history]. *)
Lemma clipboard_update_fan_out_witness :
  (Handle two_devices (clipboard_update "A" (sample_data "x") 1000 1001)).2
  = [("B", clipboard_sync (Item (sample_data "x") 1000 1001));
     ("A", history [Item (sample_data "x") 1000 1001]);
     ("B", history [Item (sample_data "x") 1000 1001])].
Proof.
  assert (reachable sample_verify sample_toISOString two_devices) as Hreach
    by (by eexists).
  assert (sockets two_devices !! "A" = Some {| userId := Some "u1" |}) as HA
    by (vm_compute; reflexivity).
  assert (sockets two_devices !! "B" = Some {| userId := Some "u1" |}) as HB
    by (vm_compute; reflexivity).
  assert ("A" ≠ "B") as Hne by discriminate.
  pose proof (clipboard_update_fan_out sample_verify sample_toISOString
                two_devices "A" "B" "u1" _ _ (sample_data "x") 1000 1001
                Hreach HA eq_refl HB eq_refl eq_refl Hne) as H.
  cbv zeta in H. destruct H as (_ & Hout & _).
  rewrite Hout. vm_compute. reflexivity.
Defined.

(** C2 on twelve updates with distinct content: ten entries are kept. *)
Lemma history_never_exceeds_max_witness :
  ∃ hist,
    clipboardHistory
      (Run ([connection "A"; authenticate "A" "token-u1"]
            ++ ((λ n : nat,
                   clipboard_update "A" (sample_data (pretty n))
                     (Z.of_nat n) (Z.of_nat n)) <$> seq 0 12))).1 !! "u1"
    = Some hist
    ∧ length hist = 10
    ∧ length hist ≤ MAX_HISTORY.
Proof.
  eexists. split; [vm_compute; reflexivity|]. split; [reflexivity|].
  eapply proj1.
  apply (history_never_exceeds_max sample_verify sample_toISOString
           ([connection "A"; authenticate "A" "token-u1"]
            ++ ((λ n : nat,
                   clipboard_update "A" (sample_data (pretty n))
                     (Z.of_nat n) (Z.of_nat n)) <$> seq 0 12)) "u1").
  vm_compute. reflexivity.
Defined.

(** C3 on a run that pushes x, y and x again: the two entries left differ
    in content, and an entry agrees with itself at its own index only. *)
Lemma history_has_no_duplicates_witness :
  clipboardHistory
    (Run [connection "A"; authenticate "A" "token-u1";
          clipboard_update "A" (sample_data "x") 1 1;
          clipboard_update "A" (sample_data "y") 2 2;
          clipboard_update "A" (sample_data "x") 3 3]).1 !! "u1"
  = Some [Item (sample_data "x") 3 3; Item (sample_data "y") 2 2]
  ∧ 0 = 0.
Proof.
  assert (clipboardHistory
            (Run [connection "A"; authenticate "A" "token-u1";
                  clipboard_update "A" (sample_data "x") 1 1;
                  clipboard_update "A" (sample_data "y") 2 2;
                  clipboard_update "A" (sample_data "x") 3 3]).1 !! "u1"
          = Some [Item (sample_data "x") 3 3; Item (sample_data "y") 2 2])
    as Hh by (vm_compute; reflexivity).
  split; [exact Hh|].
  exact (history_has_no_duplicates sample_verify sample_toISOString _ "u1" _
           0 0 (Item (sample_data "x") 3 3) (Item (sample_data "x") 3 3)
           Hh eq_refl eq_refl eq_refl eq_refl).
Defined.

(** C4 on a history of three entries, pushing the content of the last. *)
Lemma push_existing_moves_to_front_witness :
  push [sample_item 1; sample_item 2; sample_item 3] (Item (sample_data "c3") 7 8)
  = [Item (sample_data "c3") 7 8; sample_item 1; sample_item 2]
  ∧ length (push [sample_item 1; sample_item 2; sample_item 3]
              (Item (sample_data "c3") 7 8)) = 3.
Proof.
  assert (length [sample_item 1; sample_item 2; sample_item 3] ≤ MAX_HISTORY)
    as Hlen by (vm_compute; lia).
  assert (sample_item 3 ∈ [sample_item 1; sample_item 2; sample_item 3])
    as Hin by (right; right; left).
  destruct (push_existing_moves_to_front sample_toISOString
              [sample_item 1; sample_item 2; sample_item 3]
              (sample_data "c3") 7 8 (sample_item 3) Hlen Hin eq_refl eq_refl)
    as (l1 & e' & l2 & _ & _ & _ & _ & _ & Hl & _).
  split; [vm_compute; reflexivity|exact Hl].
Defined.

(** C7 on a socket that has connected and not authenticated. *)
Lemma unauthenticated_actions_rejected_witness :
  Handle (Run [connection "A"]).1
    (clipboard_update "A" (sample_data "x") 1000 1001)
  = ((Run [connection "A"]).1, [("A", error "Not authenticated")]).
Proof.
  assert (sockets (Run [connection "A"]).1 !! "A" = Some {| userId := None |})
    as HA by (vm_compute; reflexivity).
  destruct (unauthenticated_actions_rejected sample_verify sample_toISOString
              (Run [connection "A"]).1 "A" _ HA eq_refl) as (Hupd & _ & _).
  apply Hupd.
Defined.


(** C9 on two devices: after A disconnects, a broadcast for u1 is the one
    packet to B. *)
Lemma disconnect_unregisters_witness :
  broadcastToUserDevices (Handle two_devices (disconnect "A")).1 "u1"
    (history []) None
  = [("B", history [])].
Proof.
  assert (sockets two_devices !! "A" = Some {| userId := Some "u1" |}) as HA
    by (vm_compute; reflexivity).
  assert (userSockets two_devices !! "u1" = Some ["A"; "B"]) as Hm
    by (vm_compute; reflexivity).
  pose proof (disconnect_unregisters sample_verify sample_toISOString
                two_devices "A" _ HA) as H.
  cbv zeta in H. destruct H as (_ & _ & Hreg).
  destruct (Hreg "u1" ["A"; "B"] eq_refl eq_refl Hm)
    as (_ & _ & _ & _ & Honly & _).
  apply Honly.
  - apply NoDup_cons. split; [|apply NoDup_singleton].
    intros Hin%list_elem_of_singleton. discriminate Hin.
  - right; left.
  - discriminate.
  - intros c [->|Hc]%elem_of_cons; [by left|].
    apply list_elem_of_singleton in Hc. by right.
Defined.

(** C10 on an update without [type], after one with type ["text"] and the
    same content. *)
Lemma missing_type_defaults_to_text_witness :
  clipboardHistory
    (Handle (Run [connection "A"; authenticate "A" "token-u1";
                  clipboard_update "A"
                    {| data.content := "x"; data.type := Some "text";
                       data.deviceId := "d2"; data.deviceName := "phone" |}
                    1 1]).1
       (clipboard_update "A" (sample_data "x") 2 2)).1 !! "u1"
  = Some [Item (sample_data "x") 2 2].
Proof.
  assert (sockets
            (Run [connection "A"; authenticate "A" "token-u1";
                  clipboard_update "A"
                    {| data.content := "x"; data.type := Some "text";
                       data.deviceId := "d2"; data.deviceName := "phone" |}
                    1 1]).1 !! "A" = Some {| userId := Some "u1" |}) as HA
    by (vm_compute; reflexivity).
  pose proof (missing_type_defaults_to_text sample_verify sample_toISOString
                _ "A" _ "u1" (sample_data "x") 2 2 HA eq_refl eq_refl eq_refl)
    as H.
  cbv zeta in H. destruct H as (item & -> & Hstore & _).
  rewrite Hstore. vm_compute. reflexivity.
Defined.

(** ** Further properties on sample runs *)

Local Abbreviation Resume := (register_resume sample_sign).
Local Abbreviation Login := (post_login sample_compare sample_sign).
Local Abbreviation Serve :=
  (serve_all sample_verify_signed sample_toISOString sample_compare sample_sign).
Local Abbreviation HandleSigned := (handle sample_verify_signed sample_toISOString).

(** One device of user u1 that has sent the text x. *)
Local Abbreviation one_update :=
  (Run [connection "A"; authenticate "A" "token-u1";
        clipboard_update "A" (sample_data "x") 1 1]).1.

(** A server with one account, one of its devices connected and one text
    in its history, and a second socket that has not authenticated. *)
Local Abbreviation busy_server :=
  (Serve server_init
     [POST_register "a@b" "laptop"; hash_resolved 0 "h:pw" 1000 1001 5;
      socket_event (connection "A");
      socket_event (authenticate "A" "jwt:1000");
      socket_event (clipboard_update "A" (sample_data "x") 2000 2001);
      socket_event (connection "B")]).

Lemma String_substring_all (s : string) :
  String.substring 0 (String.length s) s = s.
Proof. induction s as [|a s IH]; simpl; [done|]. by rewrite IH. Qed.

Lemma sample_verify_signed_sign (userId email : string) (iat : Z) :
  sample_verify_signed (sample_sign userId email iat) = Some userId.
Proof.
  unfold sample_verify_signed, sample_sign. simpl.
  change ("" +:+ userId) with userId.
  assert (String.prefix "" userId = true) as -> by by destruct userId.
  by rewrite Nat.sub_0_r, String_substring_all.
Qed.

Lemma authenticate_success_snapshot_witness :
  (Handle (Run [connection "A"]).1 (authenticate "A" "token-u1")).2
  = [("A", history [])].
Proof.
  assert (sockets (Run [connection "A"]).1 !! "A" = Some {| userId := None |})
    as HA by (vm_compute; reflexivity).
  pose proof (authenticate_success_snapshot sample_verify sample_toISOString
                _ "A" _ "token-u1" "u1" HA eq_refl) as H.
  cbv zeta in H. destruct H as (Hout & _).
  rewrite Hout. vm_compute. reflexivity.
Defined.

Lemma authenticate_again_changes_nothing_witness :
  (Handle (Handle (Run [connection "A"]).1 (authenticate "A" "token-u1")).1
     (authenticate "A" "token-u1")).2
  = [("A", history [])].
Proof.
  assert (sockets (Run [connection "A"]).1 !! "A" = Some {| userId := None |})
    as HA by (vm_compute; reflexivity).
  pose proof (authenticate_again_changes_nothing sample_verify
                sample_toISOString _ "A" _ "token-u1" "token-u1" "u1"
                HA eq_refl eq_refl) as H.
  cbv zeta in H. rewrite H. vm_compute. reflexivity.
Defined.

Lemma clear_history_empties_witness :
  clipboardHistory (Handle one_update (clear_history "A")).1 !! "u1" = Some [].
Proof.
  assert (sockets one_update !! "A" = Some {| userId := Some "u1" |}) as HA
    by (vm_compute; reflexivity).
  pose proof (clear_history_empties sample_verify sample_toISOString
                one_update "A" _ "u1" HA eq_refl eq_refl) as H.
  cbv zeta in H. destruct H as (Hempty & _). exact Hempty.
Defined.

Lemma delete_item_removes_by_id_witness :
  clipboardHistory (Handle one_update (delete_item "A" "1")).1 !! "u1" = Some [].
Proof.
  assert (sockets one_update !! "A" = Some {| userId := Some "u1" |}) as HA
    by (vm_compute; reflexivity).
  pose proof (delete_item_removes_by_id sample_verify sample_toISOString
                one_update "A" _ "u1" "1" HA eq_refl eq_refl) as H.
  cbv zeta in H. destruct H as (Hstore & _).
  rewrite Hstore. vm_compute. reflexivity.
Defined.

Lemma push_new_content_witness :
  push [sample_item 1; sample_item 2] (Item (sample_data "fresh") 7 8)
  = [Item (sample_data "fresh") 7 8; sample_item 1; sample_item 2].
Proof.
  assert (length [sample_item 1; sample_item 2] ≤ MAX_HISTORY) as Hlen
    by (vm_compute; lia).
  assert (∀ x, x ∈ [sample_item 1; sample_item 2] →
               ¬ (content x = content (Item (sample_data "fresh") 7 8)
                  ∧ type x = type (Item (sample_data "fresh") 7 8))) as Hnew.
  { intros x Hx [Hc _].
    apply elem_of_cons in Hx as [->|Hx]; [vm_compute in Hc; discriminate Hc|].
    apply list_elem_of_singleton in Hx as ->.
    vm_compute in Hc. discriminate Hc. }
  destruct (push_new_content _ _ Hlen Hnew) as (_ & Hbelow & _).
  apply Hbelow. vm_compute. lia.
Defined.

Lemma push_same_content_twice_witness :
  push (push [sample_item 1] (Item (sample_data "x") 1 1))
    (Item (sample_data "x") 2 2)
  = [Item (sample_data "x") 2 2; sample_item 1].
Proof.
  assert (length [sample_item 1] ≤ MAX_HISTORY) as Hlen by (vm_compute; lia).
  destruct (push_same_content_twice [sample_item 1]
              (Item (sample_data "x") 1 1) (Item (sample_data "x") 2 2)
              Hlen eq_refl eq_refl) as (Hpush & _).
  rewrite Hpush. vm_compute. reflexivity.
Defined.

Lemma packets_stay_with_the_user_witness :
  ∃ s socket,
    socket_of (clipboard_update "A" (sample_data "x") 1000 1001) = Some s
    ∧ sockets two_devices !! s = Some socket
    ∧ ("B" = s ∨ ∃ U, userId socket = Some U ∧ "B" ∈ connectionsFor two_devices U).
Proof.
  apply (packets_stay_with_the_user sample_verify sample_toISOString
           two_devices (clipboard_update "A" (sample_data "x") 1000 1001) "B"
           (clipboard_sync (Item (sample_data "x") 1000 1001))).
  vm_compute. left.
Defined.

Lemma emitted_histories_are_stored_and_bounded_witness :
  length [Item (sample_data "x") 1000 1001] ≤ MAX_HISTORY.
Proof.
  assert (reachable sample_verify sample_toISOString two_devices) as Hreach
    by (by eexists).
  assert (("B", history [Item (sample_data "x") 1000 1001])
          ∈ (Handle two_devices
               (clipboard_update "A" (sample_data "x") 1000 1001)).2) as Hin
    by (vm_compute; right; right; left).
  destruct (emitted_histories_are_stored_and_bounded sample_verify
              sample_toISOString two_devices _ "B" _ Hreach Hin)
    as (_ & Hlen & _).
  exact Hlen.
Defined.

Lemma registry_stays_well_formed_witness :
  "A" ∈ connectionsFor two_devices "u1".
Proof.
  assert (reachable sample_verify sample_toISOString two_devices) as Hreach
    by (by eexists).
  assert (sockets two_devices !! "A" = Some {| userId := Some "u1" |}) as HA
    by (vm_compute; reflexivity).
  destruct (registry_stays_well_formed sample_verify sample_toISOString
              two_devices Hreach) as [_ Hlive].
  exact (Hlive "A" _ "u1" HA eq_refl).
Defined.

Lemma history_survives_reconnect_witness :
  (run sample_verify sample_toISOString one_update
     [disconnect "A"; connection "B"; authenticate "B" "token-u1"]).2
  = [("B", history [Item (sample_data "x") 1 1])].
Proof.
  assert (sockets one_update !! "A" = Some {| userId := Some "u1" |}) as HA
    by (vm_compute; reflexivity).
  assert ("B" = "A" ∨ sockets one_update !! "B" = None) as HB
    by (right; vm_compute; reflexivity).
  destruct (history_survives_reconnect sample_verify sample_toISOString
              one_update "A" "B" _ "token-u1" "u1" HA eq_refl HB) as [Hout _].
  rewrite Hout. vm_compute. reflexivity.
Defined.

Lemma displayContent_is_bounded_witness :
  displayContent 5 "hello world" = "hello..."
  ∧ String.length (displayContent 5 "hello world") = 8.
Proof.
  destruct (displayContent_is_bounded 5 "hello world") as (_ & _ & Hlong).
  assert (5 < String.length "hello world") as H by (vm_compute; lia).
  destruct (Hlong H) as [Hlen _].
  split; [vm_compute; reflexivity|exact Hlen].
Defined.

Lemma clipboardCheck_sends_each_change_once_witness :
  (clipboardCheck sample_client "laptop").2
  = [emit_clipboard_update
       {| data.content := "new"; data.type := Some "text";
          data.deviceId := "laptop"; data.deviceName := "laptop" |};
     send_clipboard_updated "new"].
Proof.
  destruct (clipboardCheck_sends_each_change_once sample_client "laptop")
    as (Hsends & _).
  apply Hsends.
  split_and!; [reflexivity|reflexivity|discriminate|discriminate].
Defined.

Lemma offline_copy_is_never_sent_witness :
  (clipboardCheck
     (set_connected
        (clipboardCheck (user_copies (set_connected sample_client false) "hi")
           "laptop").1 true) "laptop").2 = [].
Proof.
  pose proof (offline_copy_is_never_sent (set_connected sample_client false)
                "hi" "laptop" eq_refl) as H.
  cbv zeta in H. destruct H as (_ & _ & Hlater). exact Hlater.
Defined.

Lemma sync_reaches_the_other_device_once_witness :
  ∃ d,
    (clipboardCheck sample_client "laptop").2
    = [emit_clipboard_update d; send_clipboard_updated "new"]
    ∧ ("B", clipboard_sync (Item d 1000 1001))
      ∈ (Handle two_devices (clipboard_update "A" d 1000 1001)).2.
Proof.
  assert (reachable sample_verify sample_toISOString two_devices) as Hreach
    by (by eexists).
  assert (sockets two_devices !! "A" = Some {| userId := Some "u1" |}) as HA
    by (vm_compute; reflexivity).
  assert (sockets two_devices !! "B" = Some {| userId := Some "u1" |}) as HB
    by (vm_compute; reflexivity).
  assert ("A" ≠ "B") as Hne by discriminate.
  assert (clipboard sample_client ≠ "") as Hfull by discriminate.
  assert (clipboard sample_client ≠ lastClipboardContent sample_client)
    as Hnew by discriminate.
  destruct (sync_reaches_the_other_device_once sample_verify
              sample_toISOString two_devices "A" "B" "u1" _ _
              sample_client sample_client "laptop" "phone" 1000 1001
              Hreach HA eq_refl HB eq_refl eq_refl Hne eq_refl eq_refl
              Hfull Hnew)
    as (d & item & Hsent & -> & _ & _ & _ & Hsync & _).
  exists d. split; [exact Hsent|exact Hsync].
Defined.

Lemma registered_email_stays_taken_witness :
  post_register
    (Serve busy_server
       [POST_login "a@b" "pw" "phone" 2000 6; POST_register "c@d" "desk"])
    "a@b" "tablet"
  = (Serve busy_server
       [POST_login "a@b" "pw" "phone" 2000 6; POST_register "c@d" "desk"],
     Some (json_error 400 "User already exists")).
Proof.
  destruct (users busy_server !! "a@b") as [user|] eqn:Hu;
    [|vm_compute in Hu; discriminate Hu].
  exact (registered_email_stays_taken sample_verify_signed
           sample_toISOString sample_compare sample_sign busy_server
           [POST_login "a@b" "pw" "phone" 2000 6; POST_register "c@d" "desk"]
           "a@b" user "tablet" Hu).
Defined.

Lemma login_failures_look_alike_witness :
  Login server_init "a@b" "pw" "laptop" 1 1
  = (server_init, json_error 401 "Invalid credentials").
Proof.
  apply login_failures_look_alike. left. vm_compute. reflexivity.
Defined.

Lemma register_then_login_witness :
  (Login (Resume (post_register server_init "a@b" "laptop").1 0
            "h:pw" 1000 1001 5).1
     "a@b" "pw" "phone" 2000 6).2
  = json_logged_in "jwt:1000" "1000" [].
Proof.
  assert (users server_init !! "a@b" = None) as Hnew
    by (vm_compute; reflexivity).
  pose proof (register_then_login sample_compare sample_sign server_init
                "a@b" "laptop" "h:pw" "pw" "phone" 1000 1001 5 2000 6
                Hnew eq_refl) as H.
  cbv zeta in H. destruct H as (_ & _ & _ & Hwait & Hdone).
  destruct (Hdone _ _ Hwait) as (_ & _ & _ & Hlogin & _).
  etrans; [exact Hlogin|]. vm_compute. reflexivity.
Defined.

Lemma registered_token_authenticates_witness :
  ∃ token userId,
    (Resume
       (post_register
          {| users := ∅; registering := []; hub := (Run [connection "A"]).1 |}
          "a@b" "laptop").1 0 "h:pw" 1000 1001 5).2
    = Some (json_registered token userId)
    ∧ (HandleSigned
         (hub (Resume
                 (post_register
                    {| users := ∅; registering := [];
                       hub := (Run [connection "A"]).1 |}
                    "a@b" "laptop").1 0 "h:pw" 1000 1001 5).1)
         (authenticate "A" token)).2
      = [("A", history [])].
Proof.
  assert (users {| users := ∅; registering := [];
                   hub := (Run [connection "A"]).1 |} !! "a@b"
          = None) as Hnew by (vm_compute; reflexivity).
  assert (sockets (hub {| users := ∅; registering := [];
                          hub := (Run [connection "A"]).1 |})
            !! "A" = Some {| userId := None |}) as HA
    by (vm_compute; reflexivity).
  pose proof (registered_token_authenticates sample_verify_signed
                sample_toISOString sample_sign _ "a@b" "laptop" "h:pw"
                1000 1001 5 "A" _ sample_verify_signed_sign Hnew HA) as H.
  cbv zeta in H. destruct H as (token & userId & Hreg & Hout & _).
  exists token, userId. split; [exact Hreg|exact Hout].
Defined.

Lemma login_history_matches_snapshot_witness :
  (HandleSigned (hub (Login busy_server "a@b" "pw" "phone" 3000 7).1)
     (authenticate "B" "jwt:1000")).2
  = [("B", history [Item (sample_data "x") 2000 2001])].
Proof.
  assert ((Login busy_server "a@b" "pw" "phone" 3000 7).2
          = json_logged_in "jwt:1000" "1000" [Item (sample_data "x") 2000 2001])
    as Hlogin by (vm_compute; reflexivity).
  assert (sockets (hub busy_server) !! "B" = Some {| userId := None |}) as HB
    by (vm_compute; reflexivity).
  exact (login_history_matches_snapshot sample_verify_signed
           sample_toISOString sample_compare sample_sign busy_server
           "a@b" "pw" "phone" 3000 7 _ _ _ "B" _
           sample_verify_signed_sign Hlogin HB).
Defined.


Lemma accounts_are_permanent_witness :
  ∃ user',
    users (Serve busy_server
             [POST_login "a@b" "pw" "phone" 3000 7;
              POST_register "a@b" "tablet";
              hash_resolved 0 "h:other" 4000 4001 8]) !! "a@b"
    = Some user'
    ∧ User.password user' = "h:pw".
Proof.
  destruct (users busy_server !! "a@b") as [user|] eqn:Hu;
    [|vm_compute in Hu; discriminate Hu].
  assert (∀ e deviceName,
            (e, deviceName) ∈ registering busy_server → e ≠ "a@b") as Hfree.
  { intros e deviceName Hin. vm_compute in Hin. by apply elem_of_nil in Hin. }
  destruct (accounts_are_permanent sample_verify_signed sample_toISOString
              sample_compare sample_sign busy_server
              [POST_login "a@b" "pw" "phone" 3000 7;
               POST_register "a@b" "tablet";
               hash_resolved 0 "h:other" 4000 4001 8]
              "a@b" user Hu Hfree) as [(user' & Hu' & _ & _ & Hpw & _) _].
  exists user'. split; [exact Hu'|]. rewrite Hpw.
  vm_compute in Hu. by injection Hu as <-.
Defined.

(** Two registrations of one email that overlap: both pass line 49 before
    either stores its account, neither is answered 400, and the second to
    resume replaces the account of the first. *)
Lemma overlapping_registrations_replace_the_account :
  User.password
  <$> users (Serve server_init
               [POST_register "a@b" "laptop"; POST_register "a@b" "phone";
                hash_resolved 0 "h:first" 1000 1001 5;
                hash_resolved 0 "h:second" 2000 2001 6]) !! "a@b"
  = Some "h:second".
Proof. vm_compute. reflexivity. Qed.

Lemma accounts_stay_well_formed_witness :
  ∃ user,
    users (Serve server_init
             [POST_register "a@b" "laptop";
              hash_resolved 0 "h:pw" 1000 1001 5;
              POST_login "a@b" "pw" "phone" 2000 6;
              POST_login "a@b" "pw" "phone" 3000 7]) !! "a@b"
    = Some user
    ∧ NoDup (Device.name <$> User.devices user).
Proof.
  destruct (users (Serve server_init
                     [POST_register "a@b" "laptop";
                      hash_resolved 0 "h:pw" 1000 1001 5;
                      POST_login "a@b" "pw" "phone" 2000 6;
                      POST_login "a@b" "pw" "phone" 3000 7]) !! "a@b")
    as [user|] eqn:Hu; [|vm_compute in Hu; discriminate Hu].
  exists user. split; [reflexivity|].
  destruct (accounts_stay_well_formed sample_verify_signed sample_toISOString
              sample_compare sample_sign _ "a@b" user Hu) as (_ & _ & Hnd).
  exact Hnd.
Defined.

Lemma login_history_is_bounded_witness :
  length [Item (sample_data "x") 2000 2001] ≤ MAX_HISTORY.
Proof.
  assert ((Login busy_server "a@b" "pw" "phone" 3000 7).2
          = json_logged_in "jwt:1000" "1000" [Item (sample_data "x") 2000 2001])
    as Hlogin by (vm_compute; reflexivity).
  destruct (login_history_is_bounded sample_verify_signed sample_toISOString
              sample_compare sample_sign _ "a@b" "pw" "phone" 3000 7 _ _ _
              Hlogin) as [Hlen _].
  exact Hlen.
Defined.

Lemma ids_distinct_when_readings_differ_witness :
  NoDup (id <$> [Item (sample_data "y") 2 2; Item (sample_data "x") 1 1]).
Proof.
  assert (NoDup (clock_readings
                   [connection "A"; authenticate "A" "token-u1";
                    clipboard_update "A" (sample_data "x") 1 1;
                    clipboard_update "A" (sample_data "y") 2 2])) as Hclock.
  { apply NoDup_cons. split; [|apply NoDup_singleton].
    intros Hin%list_elem_of_singleton. discriminate Hin. }
  assert (clipboardHistory
            (Run [connection "A"; authenticate "A" "token-u1";
                  clipboard_update "A" (sample_data "x") 1 1;
                  clipboard_update "A" (sample_data "y") 2 2]).1 !! "u1"
          = Some [Item (sample_data "y") 2 2; Item (sample_data "x") 1 1])
    as Hh by (vm_compute; reflexivity).
  destruct (ids_distinct_when_readings_differ sample_verify sample_toISOString
              _ Hclock "u1" _ Hh) as [Hnd _].
  exact Hnd.
Defined.

Lemma broadcast_addresses_each_member_once_witness :
  broadcastToUserDevices two_devices "u1" (history []) (Some "C")
  = [("A", history []); ("B", history [])].
Proof.
  destruct (broadcast_addresses_each_member_once two_devices "u1"
              (history []) (Some "C")) as (_ & _ & Hall & _).
  rewrite Hall; [vm_compute; reflexivity|].
  intros s [= <-] Hin. vm_compute in Hin.
  apply elem_of_cons in Hin as [Hin|Hin]; [discriminate Hin|].
  apply list_elem_of_singleton in Hin. discriminate Hin.
Defined.

Lemma delete_removes_exactly_one_when_ids_distinct_witness :
  remove_id "2" [sample_item 1; sample_item 2; sample_item 3]
  = [sample_item 1; sample_item 3].
Proof.
  assert (NoDup (id <$> [sample_item 1; sample_item 2; sample_item 3])) as Hnd.
  { vm_compute. apply NoDup_cons. split.
    { intros Hin. apply elem_of_cons in Hin as [Hin|Hin]; [discriminate Hin|].
      apply list_elem_of_singleton in Hin. discriminate Hin. }
    apply NoDup_cons. split; [|apply NoDup_singleton].
    intros Hin%list_elem_of_singleton. discriminate Hin. }
  destruct (delete_removes_exactly_one_when_ids_distinct
              [sample_item 1; sample_item 2; sample_item 3] 1 (sample_item 2)
              Hnd eq_refl) as [Hdel _].
  exact Hdel.
Defined.
